(** * A banking ledger: accounts, transactions, repositories and services

    A shallow embedding of the domain, infrastructure and application layers
    of [week_1.py] and of the route handlers of its presentation layer, the
    properties its specification states about them, and further properties
    the code shows.

    - Numbers.  The code is duck-typed in the amounts: it only compares them
      ([amount <= 0], [self.balance < amount]) and adds or subtracts them
      ([+=], [-=]).  The embedding is therefore parametric in a type of
      numbers with exactly these operations ([Number]), with two instances:
      Python's unbounded [int] ([Z]) and Python's [float] (IEEE 754 binary64,
      Rocq's primitive [float]), the type the annotations name.
    - Objects.  [accounts] maps an id to an account object.  The objects are
      reachable through the dict only, so the dict holds records; a method
      call on a stored object writes the object's state back under the key
      it was read from ([method]), whether the method returns or raises.
    - Effects.  Every method is a function from the state it can touch to an
      outcome and the state it leaves: a raised exception keeps whatever was
      mutated before it ([Py]).
    - Environment.  [uuid.uuid4()] and [datetime.now()] are read from the
      environment: the value each call reads is an argument here. *)

From Stdlib Require Import ZArith Floats.
From stdpp Require Import gmap strings list.

Set Default Proof Using "Type".

(** ** Numbers *)

(** What the code asks of an amount. *)
Class Number (num : Type) := {
  num_zero : num;                 (* the literal 0 *)
  num_le : num → num → bool;      (* a <= b *)
  num_lt : num → num → bool;      (* a < b *)
  num_add : num → num → num;      (* a + b *)
  num_sub : num → num → num;      (* a - b *)
}.

(** [a > b] is Python's reflected [b < a]. *)
Definition num_gt `{Number num} (a b : num) : bool := num_lt b a.
(** [a >= b] is Python's reflected [b <= a]. *)
Definition num_ge `{Number num} (a b : num) : bool := num_le b a.

Module PyInt.
(** Python's [int]: unbounded integers. *)
#[global] Instance int_Number : Number Z := {|
  num_zero := 0%Z;
  num_le := Z.leb;
  num_lt := Z.ltb;
  num_add := Z.add;
  num_sub := Z.sub;
|}.
End PyInt.

Module PyFloat.
(** Python's [float]: IEEE 754 binary64, round to nearest even. *)
#[global] Instance float_Number : Number float := {|
  num_zero := PrimFloat.zero;
  num_le := PrimFloat.leb;
  num_lt := PrimFloat.ltb;
  num_add := PrimFloat.add;
  num_sub := PrimFloat.sub;
|}.
End PyFloat.

(** The amounts on which the arithmetic has no surprises: every int, and the
    floats that are neither NaN nor an infinity ([math.isfinite]). *)
Definition int_ordinary (a : Z) : Prop := True.
Definition float_ordinary (a : float) : Prop := PrimFloat.is_finite a = true.

(** The specification floats (of [SpecFloat]) that are [>= 0]: the zeros,
    the positive finite numbers and plus infinity. *)
Definition SFnonneg (x : spec_float) : bool :=
  match x with
  | S754_zero _ | S754_infinity false | S754_finite false _ _ => true
  | _ => false
  end.

(** ** Exceptions and the effect monad *)

(** Every failure of the core is a [ValueError].  Those the code raises carry
    a literal message; the one raised by the lookup [AccountType(value)]
    carries the rejected value (its message is
    [repr(value) + " is not a valid AccountType"]). *)
Inductive exn :=
| ValueError (msg : string)
| ValueError_not_a_valid (value : string) (enum_name : string).

#[global] Instance exn_eq_dec : EqDecision exn.
Proof. solve_decision. Defined.

(** The failure kinds of the specification, told apart by the message. *)
Inductive FailureKind :=
| InvalidAmount | InsufficientBalance | AccountNotFound | InvalidAccountType.

Definition failure_kind (e : exn) : option FailureKind :=
  match e with
  | ValueError_not_a_valid _ enum_name =>
      if bool_decide (enum_name = "AccountType") then Some InvalidAccountType else None
  | ValueError msg =>
      if bool_decide (msg = "Deposit amount must be positive.") then Some InvalidAmount
      else if bool_decide (msg = "Withdrawal amount must be positive.") then Some InvalidAmount
      else if bool_decide (msg = "Insufficient balance.") then Some InsufficientBalance
      else if bool_decide (msg = "Account not found.") then Some AccountNotFound
      else None
  end.

Inductive outcome (A : Type) :=
| Returned (a : A)
| Raised (e : exn).
Arguments Returned {A} a.
Arguments Raised {A} e.

(** A computation over a mutable state [S]: the outcome and the state left
    behind.  Nothing is rolled back when an exception is raised. *)
Definition Py (S A : Type) : Type := S → outcome A * S.

#[global] Instance Py_ret {S} : MRet (Py S) := λ A a s, (Returned a, s).
#[global] Instance Py_bind {S} : MBind (Py S) := λ A B k m s,
  match m s with
  | (Returned a, s') => k a s'
  | (Raised e, s') => (Raised e, s')
  end.

Definition raise {S A} (e : exn) : Py S A := λ s, (Raised e, s).
Definition gets {S A} (f : S → A) : Py S A := λ s, (Returned (f s), s).
Definition modify {S} (f : S → S) : Py S unit := λ s, (Returned tt, f s).

(** ** Domain layer *)

Inductive AccountStatus := ACTIVE | CLOSED.
Inductive AccountType := CHECKING | SAVINGS.
Inductive TransactionType := DEPOSIT | WITHDRAW.

#[global] Instance AccountStatus_eq_dec : EqDecision AccountStatus.
Proof. solve_decision. Defined.
#[global] Instance AccountType_eq_dec : EqDecision AccountType.
Proof. solve_decision. Defined.
#[global] Instance TransactionType_eq_dec : EqDecision TransactionType.
Proof. solve_decision. Defined.

(** The members of [AccountType], in definition order, and their values. *)
Definition AccountType_members : list AccountType := [CHECKING; SAVINGS].

Definition AccountType_value (t : AccountType) : string :=
  match t with
  | CHECKING => "CHECKING"
  | SAVINGS => "SAVINGS"
  end.

(** [AccountType(value)]: the member with that value, or [ValueError]. *)
Definition AccountType_call {S} (value : string) : Py S AccountType :=
  match find (λ t, String.eqb (AccountType_value t) value) AccountType_members with
  | Some t => mret t
  | None => raise (ValueError_not_a_valid value "AccountType")
  end.

(** [datetime.now()], as a count of microseconds. *)
Definition datetime := Z.

Section domain.
Context {num : Type} `{Number num}.

Record Account := mkAccount {
  account_id : string;
  account_type : AccountType;
  balance : num;
  status : AccountStatus;
  creation_date : datetime;
}.

(** [self.balance = b] *)
Definition set_balance (b : num) (self : Account) : Account :=
  {| account_id := account_id self;
     account_type := account_type self;
     balance := b;
     status := status self;
     creation_date := creation_date self |}.

(** [Account.__init__], with the uuid and the time it reads. *)
Definition Account_init (uuid : string) (now : datetime)
    (account_type : AccountType) (initial_deposit : num) : Account :=
  {| account_id := uuid;
     account_type := account_type;
     balance := initial_deposit;
     status := ACTIVE;
     creation_date := now |}.

Definition Account_deposit (amount : num) : Py Account unit :=
  if num_le amount num_zero then
    raise (ValueError "Deposit amount must be positive.")
  else
    modify (λ self, set_balance (num_add (balance self) amount) self).

Definition Account_withdraw (amount : num) : Py Account unit :=
  if num_le amount num_zero then
    raise (ValueError "Withdrawal amount must be positive.")
  else
    self_balance ← gets balance;
    if num_lt self_balance amount then
      raise (ValueError "Insufficient balance.")
    else
      modify (λ self, set_balance (num_sub (balance self) amount) self).

Record Transaction := mkTransaction {
  transaction_id : string;
  tx_account_id : string;
  transaction_type : TransactionType;
  amount : num;
  timestamp : datetime;
}.

(** [Transaction.__init__], with the uuid and the time it reads. *)
Definition Transaction_init (uuid : string) (now : datetime)
    (account_id : string) (transaction_type : TransactionType)
    (amount : num) : Transaction :=
  {| transaction_id := uuid;
     tx_account_id := account_id;
     transaction_type := transaction_type;
     amount := amount;
     timestamp := now |}.
End domain.

Arguments Account num : clear implicits.
Arguments Transaction num : clear implicits.

(** ** Infrastructure layer *)

Section repositories.
Context {num : Type} `{Number num}.

(** The two repository objects the services share: the dict
    [account_repo.accounts] and the list [transaction_repo.transactions]. *)
Record Bank := mkBank {
  accounts : gmap string (Account num);
  transactions : list (Transaction num);
}.

(** [AccountRepository()] and [TransactionRepository()]. *)
Definition Bank_init : Bank := {| accounts := ∅; transactions := [] |}.

Definition set_accounts (f : gmap string (Account num) → gmap string (Account num))
    (bank : Bank) : Bank :=
  {| accounts := f (accounts bank); transactions := transactions bank |}.

Definition set_transactions (f : list (Transaction num) → list (Transaction num))
    (bank : Bank) : Bank :=
  {| accounts := accounts bank; transactions := f (transactions bank) |}.

Definition AccountRepository_create_account (account : Account num) : Py Bank string :=
  modify (set_accounts (insert (account_id account) account));;
  mret (account_id account).

(** [dict.get]: [None] when the key is absent. *)
Definition AccountRepository_get_account_by_id (account_id : string)
    : Py Bank (option (Account num)) :=
  gets (λ bank, accounts bank !! account_id).

Definition AccountRepository_update_account (account : Account num) : Py Bank unit :=
  modify (set_accounts (insert (account_id account) account)).

Definition TransactionRepository_save_transaction (transaction : Transaction num)
    : Py Bank string :=
  modify (set_transactions (λ l, l ++ [transaction]));;
  mret (transaction_id transaction).

(** The comprehension [[tx for tx in self.transactions if tx.account_id == account_id]]. *)
Definition TransactionRepository_get_transactions_for_account (account_id : string)
    : Py Bank (list (Transaction num)) :=
  gets (λ bank,
    filter (λ tx, tx_account_id tx = account_id) (transactions bank)).

(** A method call [account.m(...)] on the object that [accounts] holds under
    [key]: the object is shared with the dict, so the dict sees the state
    the method leaves, also when it raises.  On return the caller's variable
    denotes the object in its new state. *)
Definition method {A} (key : string) (self : Account num) (m : Py (Account num) A)
    : Py Bank (Account num) :=
  λ bank,
    let '(r, self') := m self in
    let bank' := set_accounts (insert key self') bank in
    match r with
    | Returned _ => (Returned self', bank')
    | Raised e => (Raised e, bank')
    end.

(** ** Application layer *)

Definition AccountCreationService_create_account (uuid : string) (now : datetime)
    (account_type : string) (initial_deposit : num) : Py Bank string :=
  acc_type ← AccountType_call account_type;
  let account := Account_init uuid now acc_type initial_deposit in
  AccountRepository_create_account account;;
  mret (account_id account).

Definition TransactionService_deposit (uuid : string) (now : datetime)
    (account_id : string) (amount : num) : Py Bank (Transaction num) :=
  account ← AccountRepository_get_account_by_id account_id;
  match account with
  | None => raise (ValueError "Account not found.")
  | Some account =>
      account ← method account_id account (Account_deposit amount);
      AccountRepository_update_account account;;
      let transaction := Transaction_init uuid now account_id DEPOSIT amount in
      TransactionRepository_save_transaction transaction;;
      mret transaction
  end.

Definition TransactionService_withdraw (uuid : string) (now : datetime)
    (account_id : string) (amount : num) : Py Bank (Transaction num) :=
  account ← AccountRepository_get_account_by_id account_id;
  match account with
  | None => raise (ValueError "Account not found.")
  | Some account =>
      account ← method account_id account (Account_withdraw amount);
      AccountRepository_update_account account;;
      let transaction := Transaction_init uuid now account_id WITHDRAW amount in
      TransactionRepository_save_transaction transaction;;
      mret transaction
  end.

(** The state a returning deposit or withdrawal leaves, [account'] being
    the account after the method call: the write through the shared object,
    then [update_account], then [save_transaction]. *)
Definition moved (kind : TransactionType) (uuid : string) (now : datetime)
    (account_id' : string) (amount : num) (account' : Account num)
    (bank : Bank) : Bank :=
  {| accounts := <[account_id account' := account']>
                   (<[account_id' := account']> (accounts bank));
     transactions :=
       transactions bank ++ [Transaction_init uuid now account_id' kind amount] |}.

(** ** Sequences of calls *)

(** One call through the public interface, with what it reads from the
    environment. *)
Inductive Call :=
| CreateAccount (uuid : string) (now : datetime)
    (account_type : string) (initial_deposit : num)
| Deposit (uuid : string) (now : datetime) (account_id : string) (amount : num)
| Withdraw (uuid : string) (now : datetime) (account_id : string) (amount : num).

(** What a call returns. *)
Inductive Reply :=
| AccountId (account_id : string)
| Recorded (transaction : Transaction num).

Definition perform (call : Call) : Py Bank Reply :=
  match call with
  | CreateAccount uuid now account_type initial_deposit =>
      account_id ←
        AccountCreationService_create_account uuid now account_type initial_deposit;
      mret (AccountId account_id)
  | Deposit uuid now account_id amount =>
      transaction ← TransactionService_deposit uuid now account_id amount;
      mret (Recorded transaction)
  | Withdraw uuid now account_id amount =>
      transaction ← TransactionService_withdraw uuid now account_id amount;
      mret (Recorded transaction)
  end.

(** The presentation layer turns an exception into an error response and
    goes on serving: the next call starts from the state this one left. *)
Definition after (call : Call) (bank : Bank) : Bank := (perform call bank).2.

(** The states after each call of a sequence, in order. *)
Fixpoint history (calls : list Call) (bank : Bank) : list Bank :=
  match calls with
  | [] => []
  | call :: calls => after call bank :: history calls (after call bank)
  end.

(** The state after the whole sequence. *)
Definition run (calls : list Call) (bank : Bank) : Bank :=
  fold_left (λ bank call, after call bank) calls bank.

(** Saving transactions one after the other. *)
Definition save_all (saved : list (Transaction num)) (bank : Bank) : Bank :=
  fold_left (λ bank tx, (TransactionRepository_save_transaction tx bank).2) saved bank.

(** Whether a computation returns (rather than raises) from a state. *)
Definition returns {S A} (m : Py S A) (s : S) : bool :=
  match (m s).1 with
  | Returned _ => true
  | Raised _ => false
  end.

(** Whether a call is a deposit to or a withdrawal from the given account. *)
Definition moves (account_id : string) (call : Call) : bool :=
  match call with
  | CreateAccount _ _ _ _ => false
  | Deposit _ _ id _ | Withdraw _ _ id _ => bool_decide (id = account_id)
  end.

(** No call of the sequence, performed in turn from [bank], is a deposit or
    withdrawal on [account_id] that returns. *)
Fixpoint quiet (account_id : string) (calls : list Call) (bank : Bank) : bool :=
  match calls with
  | [] => true
  | call :: calls =>
      negb (moves account_id call && returns (perform call) bank)
      && quiet account_id calls (after call bank)
  end.

(** ** State predicates *)

(** Every account is stored under its own id. *)
Definition ids_match (bank : Bank) : Prop :=
  map_Forall (λ key account, account_id account = key) (accounts bank).

(** Every logged transaction is on a stored account. *)
Definition log_refers (bank : Bank) : Prop :=
  Forall (λ tx, is_Some (accounts bank !! tx_account_id tx)) (transactions bank).

(** [balance >= 0] for every stored account. *)
Definition balances_nonneg (bank : Bank) : Prop :=
  map_Forall (λ _ account, num_ge (balance account) num_zero = true) (accounts bank).

(** A call that opens an account with [initial_deposit >= 0], or that moves
    an [ordinary] amount. *)
Definition admissible (ordinary : num → Prop) (call : Call) : Prop :=
  match call with
  | CreateAccount _ _ _ initial_deposit => num_ge initial_deposit num_zero = true
  | Deposit _ _ _ amount | Withdraw _ _ _ amount => ordinary amount
  end.

(** What a call to [TransactionService.deposit] (kind [DEPOSIT], [op] is
    [+]) or [TransactionService.withdraw] (kind [WITHDRAW], [op] is [-])
    may leave behind, given its result [r] from the state [bank]: on
    return, one stored account replaced and one transaction appended; on an
    exception, nothing. *)
Definition one_update_one_append (kind : TransactionType) (op : num → num → num)
    (uuid : string) (now : datetime) (account_id : string) (amount' : num)
    (bank : Bank) (r : outcome (Transaction num) * Bank) : Prop :=
  match r with
  | (Returned tx, bank') =>
      ∃ account,
        accounts bank !! account_id = Some account ∧
        accounts bank' =
          <[account_id := set_balance (op (balance account) amount') account]>
            (accounts bank) ∧
        transactions bank' = transactions bank ++ [tx] ∧
        tx_account_id tx = account_id ∧
        transaction_type tx = kind ∧
        amount tx = amount' ∧
        transaction_id tx = uuid ∧
        timestamp tx = now
  | (Raised e, bank') =>
      bank' = bank ∧
      (failure_kind e = Some AccountNotFound ∨
       failure_kind e = Some InvalidAmount ∨
       failure_kind e = Some InsufficientBalance)
  end.

(** A call raises and leaves the state alone, or opens an account, or moves
    money on a stored account and logs it. *)
Inductive performed (call : Call) (bank : Bank) : outcome Reply → Bank → Prop :=
| performed_raised e :
    performed call bank (Raised e) bank
| performed_created uuid now t initial_deposit :
    call = CreateAccount uuid now (AccountType_value t) initial_deposit →
    performed call bank (Returned (AccountId uuid))
      (set_accounts (insert uuid (Account_init uuid now t initial_deposit)) bank)
| performed_deposited uuid now account_id account amount :
    call = Deposit uuid now account_id amount →
    accounts bank !! account_id = Some account →
    num_le amount num_zero = false →
    performed call bank
      (Returned (Recorded (Transaction_init uuid now account_id DEPOSIT amount)))
      (moved DEPOSIT uuid now account_id amount
         (set_balance (num_add (balance account) amount) account) bank)
| performed_withdrawn uuid now account_id account amount :
    call = Withdraw uuid now account_id amount →
    accounts bank !! account_id = Some account →
    num_le amount num_zero = false →
    num_lt (balance account) amount = false →
    performed call bank
      (Returned (Recorded (Transaction_init uuid now account_id WITHDRAW amount)))
      (moved WITHDRAW uuid now account_id amount
         (set_balance (num_sub (balance account) amount) account) bank).
End repositories.

Arguments Bank num : clear implicits.
Arguments Call num : clear implicits.
Arguments Reply num : clear implicits.

(** [create_account(account_type)], the initial deposit left to its default:
    the float [0.0], whatever the other amounts are. *)
Definition AccountCreationService_create_account_default (uuid : string)
    (now : datetime) (account_type : string) : Py (Bank float) string :=
  AccountCreationService_create_account uuid now account_type PrimFloat.zero.

(** ** Presentation layer

    The route handlers, as functions of the parsed request: what each
    returns (the dict FastAPI then serialises) or the [HTTPException] it
    raises, and the state of the two repositories it leaves.  [str.upper] and
    [repr] are Python's; they are parameters here. *)

(** The values of the other two enums. *)
Definition AccountStatus_value (s : AccountStatus) : string :=
  match s with
  | ACTIVE => "ACTIVE"
  | CLOSED => "CLOSED"
  end.

Definition TransactionType_value (t : TransactionType) : string :=
  match t with
  | DEPOSIT => "DEPOSIT"
  | WITHDRAW => "WITHDRAW"
  end.

(** What a handler leaves to FastAPI: the value it returns, or the
    [HTTPException] it raises. *)
Inductive http (A : Type) :=
| Ok (a : A)
| HTTPException (status_code : Z) (detail : string).
Arguments Ok {A} a.
Arguments HTTPException {A} status_code detail.

Section presentation.
Context {num : Type} `{Number num}.
Variable upper : string → string.
Variable repr : string → string.

(** The Python values the handlers return: strings, numbers, datetimes,
    dict literals (keys in the order written) and lists. *)
#[local] Set Warnings "-register-all".
Inductive value :=
| Str (s : string)
| Num (n : num)
| Time (t : datetime)
| Dict (items : list (string * value))
| List (items : list value).

(** [str(e)]: the message of the exception; the enum lookup's is
    [repr(value) + " is not a valid " + name]. *)
Definition str_exn (e : exn) : string :=
  match e with
  | ValueError msg => msg
  | ValueError_not_a_valid value enum_name =>
      repr value +:+ " is not a valid " +:+ enum_name
  end.

(** The request bodies.  [req_amount] is [TransactionRequest.amount]. *)
Record AccountRequest := mkAccountRequest {
  accountType : string;
  initialDeposit : num;
}.

Record TransactionRequest := mkTransactionRequest {
  req_amount : num;
}.

(** [POST /accounts] *)
Definition create_account (uuid : string) (now : datetime) (req : AccountRequest)
    : Bank num → http value * Bank num :=
  λ bank,
    match AccountCreationService_create_account uuid now
            (upper (accountType req)) (initialDeposit req) bank with
    | (Returned account_id, bank') =>
        (Ok (Dict [("accountId", Str account_id)]), bank')
    | (Raised e, bank') => (HTTPException 400 (str_exn e), bank')
    end.

(** The dict both transaction routes return.  With [account] being [None]
    the attribute access [account.balance] raises [AttributeError], which the
    handler's [except Exception] turns into a 400 like any other. *)
Definition transaction_response (tx : Transaction num) (account : option (Account num))
    : http value :=
  match account with
  | Some account =>
      Ok (Dict [ ("transactionId", Str (transaction_id tx));
                 ("transactionType", Str (TransactionType_value (transaction_type tx)));
                 ("amount", Num (amount tx));
                 ("timestamp", Time (timestamp tx));
                 ("newBalance", Num (balance account)) ])
  | None => HTTPException 400 "'NoneType' object has no attribute 'balance'"
  end.

(** [POST /accounts/{account_id}/deposit] *)
Definition deposit (uuid : string) (now : datetime) (account_id : string)
    (req : TransactionRequest) : Bank num → http value * Bank num :=
  λ bank,
    match TransactionService_deposit uuid now account_id (req_amount req) bank with
    | (Returned tx, bank') =>
        match AccountRepository_get_account_by_id account_id bank' with
        | (Returned account, bank'') => (transaction_response tx account, bank'')
        | (Raised e, bank'') => (HTTPException 400 (str_exn e), bank'')
        end
    | (Raised e, bank') => (HTTPException 400 (str_exn e), bank')
    end.

(** [POST /accounts/{account_id}/withdraw] *)
Definition withdraw (uuid : string) (now : datetime) (account_id : string)
    (req : TransactionRequest) : Bank num → http value * Bank num :=
  λ bank,
    match TransactionService_withdraw uuid now account_id (req_amount req) bank with
    | (Returned tx, bank') =>
        match AccountRepository_get_account_by_id account_id bank' with
        | (Returned account, bank'') => (transaction_response tx account, bank'')
        | (Raised e, bank'') => (HTTPException 400 (str_exn e), bank'')
        end
    | (Raised e, bank') => (HTTPException 400 (str_exn e), bank')
    end.

(** The dict [GET .../balance] returns. *)
Definition balance_response (account : Account num) : value :=
  Dict [ ("accountId", Str (account_id account));
         ("accountType", Str (AccountType_value (account_type account)));
         ("balance", Num (balance account));
         ("status", Str (AccountStatus_value (status account)));
         ("creationDate", Time (creation_date account)) ].

(** [GET /accounts/{account_id}/balance].  The two [GET] handlers catch
    nothing: an exception in them would be FastAPI's 500 (the repository
    reads never raise one). *)
Definition get_balance (account_id : string) : Bank num → http value * Bank num :=
  λ bank,
    match AccountRepository_get_account_by_id account_id bank with
    | (Returned (Some account), bank') => (Ok (balance_response account), bank')
    | (Returned None, bank') => (HTTPException 404 "Account not found", bank')
    | (Raised e, bank') => (HTTPException 500 "Internal Server Error", bank')
    end.

(** One entry of the list [GET .../transactions] returns. *)
Definition transaction_entry (t : Transaction num) : value :=
  Dict [ ("transactionId", Str (transaction_id t));
         ("type", Str (TransactionType_value (transaction_type t)));
         ("amount", Num (amount t));
         ("timestamp", Time (timestamp t)) ].

(** [GET /accounts/{account_id}/transactions] *)
Definition get_transactions (account_id : string) : Bank num → http value * Bank num :=
  λ bank,
    match TransactionRepository_get_transactions_for_account account_id bank with
    | (Returned transactions, bank') =>
        (Ok (List (transaction_entry <$> transactions)), bank')
    | (Raised e, bank') => (HTTPException 500 "Internal Server Error", bank')
    end.
End presentation.

Arguments value num : clear implicits.
Arguments AccountRequest num : clear implicits.
Arguments TransactionRequest num : clear implicits.

(** ** Measures of a sequence of calls and of a log *)

Section measures.
Context {num : Type} `{Number num}.

(** The id a call names: the one it opens, or the one it moves money on. *)
Definition names (call : Call num) : string :=
  match call with
  | CreateAccount uuid _ _ _ => uuid
  | Deposit _ _ account_id _ | Withdraw _ _ account_id _ => account_id
  end.

(** The uuid a call draws, if it gets that far: the id of the account it
    opens or of the transaction it records. *)
Definition call_uuid (call : Call num) : string :=
  match call with
  | CreateAccount uuid _ _ _ | Deposit uuid _ _ _ | Withdraw uuid _ _ _ => uuid
  end.

(** Whether a call opens an account under the given id. *)
Definition opens (account_id : string) (call : Call num) : bool :=
  match call with
  | CreateAccount uuid _ _ _ => bool_decide (uuid = account_id)
  | _ => false
  end.

(** Whether a call is a deposit or a withdrawal. *)
Definition is_move (call : Call num) : bool :=
  match call with
  | CreateAccount _ _ _ _ => false
  | _ => true
  end.

(** How many deposits and withdrawals of the sequence, performed in turn
    from [bank], return. *)
Fixpoint returned_moves (calls : list (Call num)) (bank : Bank num) : nat :=
  match calls with
  | [] => 0
  | call :: calls =>
      (if is_move call && returns (perform call) bank then 1 else 0)%nat
      + returned_moves calls (after call bank)
  end.
End measures.

(** What a log says was moved on an account, in integer amounts: the
    deposits less the withdrawals. *)
Definition signed_amount (tx : Transaction Z) : Z :=
  match transaction_type tx with
  | DEPOSIT => amount tx
  | WITHDRAW => (- amount tx)%Z
  end.

Definition net (account_id : string) (log : list (Transaction Z)) : Z :=
  foldr (λ tx acc, signed_amount tx + acc)%Z 0%Z
    (filter (λ tx, tx_account_id tx = account_id) log).

(** [str.upper] and [repr] on the strings the runs below use: plain ASCII
    letters, for which upper-casing is letter by letter and [repr] adds
    single quotes. *)
Module PlainAscii.
Definition upper_ascii (c : Ascii.ascii) : Ascii.ascii :=
  let n := Ascii.nat_of_ascii c in
  if (97 <=? n)%nat && (n <=? 122)%nat then Ascii.ascii_of_nat (n - 32) else c.

Fixpoint upper (s : string) : string :=
  match s with
  | EmptyString => EmptyString
  | String c s => String (upper_ascii c) (upper s)
  end.

Definition repr (s : string) : string := "'" +:+ s +:+ "'".
End PlainAscii.

(** ** The scenario of the specification, and two more states *)

Module Scenario.
#[local] Set Warnings "-inexact-float".
#[local] Open Scope float_scope.

(** Open a checking account with 100.0, deposit 50.0, try to withdraw
    200.0, withdraw 150.0. *)
Definition calls : list (Call float) :=
  [ CreateAccount "acc-1" 0%Z "CHECKING" 100;
    Deposit "tx-1" 1%Z "acc-1" 50;
    Withdraw "tx-2" 2%Z "acc-1" 200;
    Withdraw "tx-3" 3%Z "acc-1" 150 ].

(** The state after the first two calls. *)
Definition funded : Bank float := run (take 2 calls) Bank_init.

(** The account it holds. *)
Definition funded_account : Account float := Account_init "acc-1" 0%Z CHECKING 150.

(** Calls of which none moves money on a later account "acc-5" holding
    100.0: a deposit elsewhere, a withdrawal beyond its balance, a deposit of
    a negative amount. *)
Definition idle_calls : list (Call float) :=
  [ Deposit "tx-5" 9%Z "acc-1" 5;
    Withdraw "tx-6" 10%Z "acc-5" 500;
    Deposit "tx-7" 11%Z "acc-5" (-1) ].

(** An account opened with a negative initial deposit. *)
Definition overdrawn_opening : Call float := CreateAccount "acc-2" 4%Z "SAVINGS" (-5).
Definition overdrawn : Account float := Account_init "acc-2" 4%Z SAVINGS (-5).


(** The same scenario in whole units, as Python ints. *)
Definition int_calls : list (Call Z) :=
  [ CreateAccount "acc-1" 0%Z "CHECKING" 100%Z;
    Deposit "tx-1" 1%Z "acc-1" 50%Z;
    Withdraw "tx-2" 2%Z "acc-1" 200%Z;
    Withdraw "tx-3" 3%Z "acc-1" 150%Z ].
End Scenario.

(** Two more accounts: one holding 1e16, where the floats are two apart, and
    one holding 100 whole units. *)
Module Rounding.
#[local] Open Scope float_scope.
Definition large : Account float := Account_init "acc-6" 13%Z CHECKING 1e16.
Definition whole : Account Z := Account_init "acc-7" 14%Z CHECKING 100%Z.
End Rounding.

(** * Properties *)

(** ** The failure kinds are told apart *)

Lemma failure_kind_deposit_amount :
  failure_kind (ValueError "Deposit amount must be positive.") = Some InvalidAmount.
Proof. reflexivity. Qed.

Lemma failure_kind_withdrawal_amount :
  failure_kind (ValueError "Withdrawal amount must be positive.") = Some InvalidAmount.
Proof. reflexivity. Qed.

Lemma failure_kind_insufficient :
  failure_kind (ValueError "Insufficient balance.") = Some InsufficientBalance.
Proof. reflexivity. Qed.

Lemma failure_kind_not_found :
  failure_kind (ValueError "Account not found.") = Some AccountNotFound.
Proof. reflexivity. Qed.

Lemma failure_kind_account_type value :
  failure_kind (ValueError_not_a_valid value "AccountType") = Some InvalidAccountType.
Proof. reflexivity. Qed.

(** ** Account *)

Section account_properties.
Context {num : Type} `{Number num}.
Implicit Types (self : Account num) (amount : num).

Lemma set_balance_same self : set_balance (balance self) self = self.
Proof. by destruct self. Qed.

Lemma balance_set_balance b self : balance (set_balance b self) = b.
Proof. reflexivity. Qed.

Lemma Account_deposit_rejects self amount :
  num_le amount num_zero = true →
  Account_deposit amount self =
    (Raised (ValueError "Deposit amount must be positive."), self).
Proof. intros Hle. unfold Account_deposit. by rewrite Hle. Qed.

Lemma Account_deposit_accepts self amount :
  num_le amount num_zero = false →
  Account_deposit amount self =
    (Returned (), set_balance (num_add (balance self) amount) self).
Proof. intros Hle. unfold Account_deposit. by rewrite Hle. Qed.

Lemma Account_withdraw_rejects self amount :
  num_le amount num_zero = true →
  Account_withdraw amount self =
    (Raised (ValueError "Withdrawal amount must be positive."), self).
Proof. intros Hle. unfold Account_withdraw. by rewrite Hle. Qed.

Lemma Account_withdraw_short self amount :
  num_le amount num_zero = false →
  num_lt (balance self) amount = true →
  Account_withdraw amount self = (Raised (ValueError "Insufficient balance."), self).
Proof.
  intros Hle Hlt. unfold Account_withdraw. rewrite Hle.
  unfold mbind, Py_bind, gets. simpl. by rewrite Hlt.
Qed.

Lemma Account_withdraw_accepts self amount :
  num_le amount num_zero = false →
  num_lt (balance self) amount = false →
  Account_withdraw amount self =
    (Returned (), set_balance (num_sub (balance self) amount) self).
Proof.
  intros Hle Hlt. unfold Account_withdraw. rewrite Hle.
  unfold mbind, Py_bind, gets. simpl. by rewrite Hlt.
Qed.

(** C4, as amended.  When [amount > balance], [Account.withdraw(amount)]
    raises: the insufficient-balance error if [amount] is positive, the
    invalid-amount error if [amount <= 0] (the balance is negative then);
    either way the account is as it was. *)
Theorem withdraw_exceeding_balance self amount :
  num_gt amount (balance self) = true →
  ∃ e, Account_withdraw amount self = (Raised e, self) ∧
       failure_kind e =
         Some (if num_le amount num_zero then InvalidAmount else InsufficientBalance).
Proof.
  intros Hgt. destruct (num_le amount num_zero) eqn:Hle.
  - eexists. split; [by apply Account_withdraw_rejects|done].
  - eexists. split; [by apply Account_withdraw_short|done].
Qed.

(** C9.  With [amount <= 0], [Account.withdraw(amount)] raises the
    invalid-amount error, not the insufficient-balance one, whatever the
    balance is: negative, or below [amount]. *)
Theorem withdraw_amount_checked_first self amount :
  num_le amount num_zero = true →
  ∃ e, Account_withdraw amount self = (Raised e, self) ∧
       failure_kind e = Some InvalidAmount ∧
       failure_kind e ≠ Some InsufficientBalance.
Proof.
  intros Hle. eexists. split; [by apply Account_withdraw_rejects|done].
Qed.
End account_properties.

(** ** Repositories and services *)

Section service_properties.
Context {num : Type} `{Number num}.
Implicit Types (bank : Bank num) (account : Account num) (amount : num).
Implicit Types (tx : Transaction num) (call : Call num).

Lemma set_accounts_insert_id bank key account :
  accounts bank !! key = Some account →
  set_accounts (insert key account) bank = bank.
Proof.
  intros Hkey. destruct bank as [accs log]. unfold set_accounts. simpl in *.
  by rewrite insert_id.
Qed.

(** A method that raises without touching the object leaves the dict alone. *)
Lemma method_raises {A} (m : Py (Account num) A) bank key account e :
  accounts bank !! key = Some account →
  m account = (Raised e, account) →
  method key account m bank = (Raised e, bank).
Proof.
  intros Hkey Hm. unfold method. rewrite Hm.
  by rewrite set_accounts_insert_id.
Qed.

Lemma method_returns {A} (m : Py (Account num) A) bank key account (a : A) account' :
  m account = (Returned a, account') →
  method key account m bank =
    (Returned account', set_accounts (insert key account') bank).
Proof. intros Hm. unfold method. by rewrite Hm. Qed.

Lemma TransactionService_deposit_not_found bank uuid now account_id amount :
  accounts bank !! account_id = None →
  TransactionService_deposit uuid now account_id amount bank =
    (Raised (ValueError "Account not found."), bank).
Proof.
  intros Hkey. unfold TransactionService_deposit, AccountRepository_get_account_by_id.
  unfold mbind, Py_bind, gets. by rewrite Hkey.
Qed.

Lemma TransactionService_deposit_rejected bank uuid now account_id account amount :
  accounts bank !! account_id = Some account →
  num_le amount num_zero = true →
  TransactionService_deposit uuid now account_id amount bank =
    (Raised (ValueError "Deposit amount must be positive."), bank).
Proof.
  intros Hkey Hle.
  unfold TransactionService_deposit, AccountRepository_get_account_by_id.
  unfold mbind, Py_bind, gets. rewrite Hkey.
  by rewrite (method_raises _ _ _ _ _ Hkey (Account_deposit_rejects _ _ Hle)).
Qed.

Lemma TransactionService_deposit_done bank uuid now account_id account amount :
  accounts bank !! account_id = Some account →
  num_le amount num_zero = false →
  TransactionService_deposit uuid now account_id amount bank =
    (Returned (Transaction_init uuid now account_id DEPOSIT amount),
     moved DEPOSIT uuid now account_id amount
       (set_balance (num_add (balance account) amount) account) bank).
Proof.
  intros Hkey Hle.
  unfold TransactionService_deposit, AccountRepository_get_account_by_id.
  unfold mbind, Py_bind, gets. rewrite Hkey.
  by rewrite (method_returns _ _ _ _ _ _ (Account_deposit_accepts _ _ Hle)).
Qed.

Lemma TransactionService_withdraw_not_found bank uuid now account_id amount :
  accounts bank !! account_id = None →
  TransactionService_withdraw uuid now account_id amount bank =
    (Raised (ValueError "Account not found."), bank).
Proof.
  intros Hkey. unfold TransactionService_withdraw, AccountRepository_get_account_by_id.
  unfold mbind, Py_bind, gets. by rewrite Hkey.
Qed.

Lemma TransactionService_withdraw_rejected bank uuid now account_id account amount :
  accounts bank !! account_id = Some account →
  num_le amount num_zero = true →
  TransactionService_withdraw uuid now account_id amount bank =
    (Raised (ValueError "Withdrawal amount must be positive."), bank).
Proof.
  intros Hkey Hle.
  unfold TransactionService_withdraw, AccountRepository_get_account_by_id.
  unfold mbind, Py_bind, gets. rewrite Hkey.
  by rewrite (method_raises _ _ _ _ _ Hkey (Account_withdraw_rejects _ _ Hle)).
Qed.

Lemma TransactionService_withdraw_short bank uuid now account_id account amount :
  accounts bank !! account_id = Some account →
  num_le amount num_zero = false →
  num_lt (balance account) amount = true →
  TransactionService_withdraw uuid now account_id amount bank =
    (Raised (ValueError "Insufficient balance."), bank).
Proof.
  intros Hkey Hle Hlt.
  unfold TransactionService_withdraw, AccountRepository_get_account_by_id.
  unfold mbind, Py_bind, gets. rewrite Hkey.
  by rewrite (method_raises _ _ _ _ _ Hkey (Account_withdraw_short _ _ Hle Hlt)).
Qed.

Lemma TransactionService_withdraw_done bank uuid now account_id account amount :
  accounts bank !! account_id = Some account →
  num_le amount num_zero = false →
  num_lt (balance account) amount = false →
  TransactionService_withdraw uuid now account_id amount bank =
    (Returned (Transaction_init uuid now account_id WITHDRAW amount),
     moved WITHDRAW uuid now account_id amount
       (set_balance (num_sub (balance account) amount) account) bank).
Proof.
  intros Hkey Hle Hlt.
  unfold TransactionService_withdraw, AccountRepository_get_account_by_id.
  unfold mbind, Py_bind, gets. rewrite Hkey.
  by rewrite (method_returns _ _ _ _ _ _ (Account_withdraw_accepts _ _ Hle Hlt)).
Qed.

Lemma AccountType_call_member {S} (t : AccountType) (s : S) :
  AccountType_call (AccountType_value t) s = (Returned t, s).
Proof. by destruct t. Qed.

Lemma AccountType_call_other {S} (value : string) (s : S) :
  value ≠ "CHECKING" → value ≠ "SAVINGS" →
  AccountType_call value s = (Raised (ValueError_not_a_valid value "AccountType"), s).
Proof.
  intros Hc Hs.
  assert (String.eqb "CHECKING" value = false) as Ec
    by (apply String.eqb_neq; congruence).
  assert (String.eqb "SAVINGS" value = false) as Es
    by (apply String.eqb_neq; congruence).
  unfold AccountType_call, AccountType_members, find, AccountType_value.
  by rewrite Ec, Es.
Qed.

Lemma create_account_done bank uuid now (t : AccountType) initial_deposit :
  AccountCreationService_create_account uuid now (AccountType_value t)
      initial_deposit bank =
    (Returned uuid,
     set_accounts (insert uuid (Account_init uuid now t initial_deposit)) bank).
Proof.
  unfold AccountCreationService_create_account, mbind, Py_bind.
  by rewrite AccountType_call_member.
Qed.

Lemma create_account_rejected bank uuid now account_type initial_deposit :
  account_type ≠ "CHECKING" → account_type ≠ "SAVINGS" →
  AccountCreationService_create_account uuid now account_type initial_deposit bank =
    (Raised (ValueError_not_a_valid account_type "AccountType"), bank).
Proof.
  intros Hc Hs. unfold AccountCreationService_create_account, mbind, Py_bind.
  by rewrite AccountType_call_other.
Qed.

Lemma AccountType_value_cases (value : string) :
  (∃ t, value = AccountType_value t) ∨ (value ≠ "CHECKING" ∧ value ≠ "SAVINGS").
Proof.
  destruct (decide (value = "CHECKING")) as [->|Hc]; [left; by exists CHECKING|].
  destruct (decide (value = "SAVINGS")) as [->|Hs]; [left; by exists SAVINGS|].
  by right.
Qed.
End service_properties.

(** ** One call, case by case *)

Section call_properties.
Context {num : Type} `{Number num}.
Implicit Types (bank : Bank num) (account : Account num) (amount : num).
Implicit Types (tx : Transaction num) (call : Call num).

Lemma perform_performed call bank :
  performed call bank (perform call bank).1 (perform call bank).2.
Proof.
  destruct call as [uuid now account_type d|uuid now id amount|uuid now id amount];
    unfold perform, mbind, Py_bind.
  - destruct (AccountType_value_cases account_type) as [[t ->]|[Hc Hs]].
    + rewrite create_account_done. simpl. by eapply performed_created.
    + rewrite create_account_rejected by done. apply performed_raised.
  - destruct (accounts bank !! id) as [account|] eqn:Hkey.
    + destruct (num_le amount num_zero) eqn:Hle.
      * rewrite (TransactionService_deposit_rejected _ _ _ _ _ _ Hkey Hle).
        apply performed_raised.
      * rewrite (TransactionService_deposit_done _ _ _ _ _ _ Hkey Hle).
        by eapply performed_deposited.
    + rewrite TransactionService_deposit_not_found by done. apply performed_raised.
  - destruct (accounts bank !! id) as [account|] eqn:Hkey.
    + destruct (num_le amount num_zero) eqn:Hle.
      * rewrite (TransactionService_withdraw_rejected _ _ _ _ _ _ Hkey Hle).
        apply performed_raised.
      * destruct (num_lt (balance account) amount) eqn:Hlt.
        -- rewrite (TransactionService_withdraw_short _ _ _ _ _ _ Hkey Hle Hlt).
           apply performed_raised.
        -- rewrite (TransactionService_withdraw_done _ _ _ _ _ _ Hkey Hle Hlt).
           by eapply performed_withdrawn.
    + rewrite TransactionService_withdraw_not_found by done. apply performed_raised.
Qed.

(** *** Invariants of the stored state *)

Lemma ids_match_init : ids_match (Bank_init (num := num)).
Proof. apply map_Forall_empty. Qed.

Lemma ids_match_after call bank : ids_match bank → ids_match (after call bank).
Proof.
  intros Hids. unfold after.
  destruct (perform_performed call bank)
    as [e|uuid now t d _|uuid now id account amount _ Hkey _
       |uuid now id account amount _ Hkey _ _];
    [done|..]; unfold ids_match in *; simpl.
  - by apply map_Forall_insert_2.
  - pose proof (Hids _ _ Hkey) as Hid. simpl in Hid.
    apply map_Forall_insert_2; [done|]. by apply map_Forall_insert_2.
  - pose proof (Hids _ _ Hkey) as Hid. simpl in Hid.
    apply map_Forall_insert_2; [done|]. by apply map_Forall_insert_2.
Qed.

(** A returning deposit or withdrawal on a state whose ids match replaces
    one stored account. *)
Lemma moved_accounts kind uuid now account_id' amount account' bank :
  account_id account' = account_id' →
  accounts (moved kind uuid now account_id' amount account' bank) =
    <[account_id' := account']> (accounts bank).
Proof. intros <-. unfold moved. simpl. by rewrite insert_insert_eq. Qed.

(** Accounts are never removed. *)
Lemma accounts_kept call bank key :
  is_Some (accounts bank !! key) → is_Some (accounts (after call bank) !! key).
Proof.
  intros Hkey. unfold after.
  destruct (perform_performed call bank)
    as [e|uuid now t d _|uuid now id account amount _ Hid _
       |uuid now id account amount _ Hid _ _];
    [done|..]; simpl; rewrite ?lookup_insert_is_Some;
    repeat match goal with
           | |- context [decide (?a = ?b)] => destruct (decide (a = b))
           | |- (?a = ?b ∨ _) => destruct (decide (a = b)); [by left|right]
           | |- (?a ≠ ?b ∧ _) => split; [done|]
           end; done.
Qed.

Lemma log_refers_init : log_refers (Bank_init (num := num)).
Proof. apply Forall_nil_2. Qed.

Lemma log_refers_after call bank : log_refers bank → log_refers (after call bank).
Proof.
  intros Hlog.
  assert (Forall (λ tx, is_Some (accounts (after call bank) !! tx_account_id tx))
            (transactions bank)) as Hold.
  { eapply Forall_impl; [exact Hlog|]. intros tx. apply accounts_kept. }
  revert Hold. unfold log_refers, after.
  destruct (perform_performed call bank)
    as [e|uuid now t d _|uuid now id account amount _ Hid _
       |uuid now id account amount _ Hid _ _];
    [done|done|..]; simpl; intros Hold.
  - apply Forall_app. split; [done|]. apply Forall_singleton. simpl.
    rewrite !lookup_insert_is_Some.
    destruct (decide (account_id account = id)); [by left|right].
    split; [done|by left].
  - apply Forall_app. split; [done|]. apply Forall_singleton. simpl.
    rewrite !lookup_insert_is_Some.
    destruct (decide (account_id account = id)); [by left|right].
    split; [done|by left].
Qed.

(** What a call appends to the log: a returning deposit or withdrawal one
    transaction on its account, anything else nothing. *)
Lemma transactions_after call bank :
  transactions (after call bank) = transactions bank ∨
  ∃ tx account_id, moves account_id call = true ∧
    returns (perform call) bank = true ∧
    tx_account_id tx = account_id ∧
    transactions (after call bank) = transactions bank ++ [tx].
Proof.
  unfold after, returns.
  destruct (perform_performed call bank)
    as [e|uuid now t d _|uuid now id account amount -> _ _
       |uuid now id account amount -> _ _ _];
    [by left|by left|right..]; simpl.
  - exists (Transaction_init uuid now id DEPOSIT amount), id.
    split; [by apply bool_decide_eq_true|done].
  - exists (Transaction_init uuid now id WITHDRAW amount), id.
    split; [by apply bool_decide_eq_true|done].
Qed.

(** *** Sequences *)

Lemma run_cons call calls bank : run (call :: calls) bank = run calls (after call bank).
Proof. reflexivity. Qed.

Lemma run_invariant (P : Bank num → Prop) calls bank :
  (∀ call bank, P bank → P (after call bank)) → P bank → P (run calls bank).
Proof.
  intros Hstep. revert bank.
  induction calls as [|call calls IH]; intros bank HP; [done|].
  rewrite run_cons. apply IH. by apply Hstep.
Qed.

Lemma ids_match_run calls : ids_match (run calls (Bank_init (num := num))).
Proof. apply run_invariant; [apply ids_match_after|apply ids_match_init]. Qed.

Lemma log_refers_run calls : log_refers (run calls (Bank_init (num := num))).
Proof. apply run_invariant; [apply log_refers_after|apply log_refers_init]. Qed.
End call_properties.

(** ** The claims on repositories and services *)

Section service_claims.
Context {num : Type} `{Number num}.
Implicit Types (bank : Bank num) (account : Account num) (amount : num).
Implicit Types (tx : Transaction num) (call : Call num).

(** C3.  On a state whose accounts are stored under their own ids,
    [TransactionService.deposit] and [TransactionService.withdraw] either
    return a transaction, and then exactly one stored account was replaced
    (by itself with the balance moved by the amount) and exactly that
    transaction was appended to the log, with the account id, amount and
    type of the call; or they raise one of the account-not-found,
    invalid-amount and insufficient-balance errors, and then the whole
    state, log and stored accounts, is what it was. *)
Theorem services_update_and_append bank uuid now account_id amount :
  ids_match bank →
  one_update_one_append DEPOSIT num_add uuid now account_id amount bank
    (TransactionService_deposit uuid now account_id amount bank) ∧
  one_update_one_append WITHDRAW num_sub uuid now account_id amount bank
    (TransactionService_withdraw uuid now account_id amount bank).
Proof.
  intros Hids. unfold one_update_one_append.
  destruct (accounts bank !! account_id) as [account|] eqn:Hkey.
  - pose proof (Hids _ _ Hkey) as Hid. simpl in Hid.
    destruct (num_le amount num_zero) eqn:Hle.
    + rewrite (TransactionService_deposit_rejected _ _ _ _ _ _ Hkey Hle).
      rewrite (TransactionService_withdraw_rejected _ _ _ _ _ _ Hkey Hle).
      split; (split; [done|right; by left]).
    + rewrite (TransactionService_deposit_done _ _ _ _ _ _ Hkey Hle).
      split.
      { exists account. by rewrite moved_accounts. }
      destruct (num_lt (balance account) amount) eqn:Hlt.
      * rewrite (TransactionService_withdraw_short _ _ _ _ _ _ Hkey Hle Hlt).
        split; [done|right; by right].
      * rewrite (TransactionService_withdraw_done _ _ _ _ _ _ Hkey Hle Hlt).
        exists account. by rewrite moved_accounts.
  - rewrite TransactionService_deposit_not_found by done.
    rewrite TransactionService_withdraw_not_found by done.
    split; (split; [done|by left]).
Qed.

Lemma save_all_transactions saved bank :
  transactions (save_all saved bank) = transactions bank ++ saved.
Proof.
  revert bank. induction saved as [|tx saved IH]; intros bank; simpl.
  - by rewrite app_nil_r.
  - unfold save_all in *. simpl. rewrite IH. simpl. by rewrite <- app_assoc.
Qed.

(** C6.  After any transactions [saved] are saved, one after the other, to
    a log, [get_transactions_for_account] returns a list (and changes
    nothing): the transactions of the log on that account, the earlier
    ones first and then those of [saved] in the order they were saved; a
    transaction is in it exactly when it is in the log and on that account;
    and it is the empty list exactly when the log has none on that
    account. *)
Theorem get_transactions_in_order bank saved account_id :
  let on_account := λ tx, tx_account_id tx = account_id in
  let bank' := save_all saved bank in
  ∃ found,
    TransactionRepository_get_transactions_for_account account_id bank' =
      (Returned found, bank') ∧
    found = filter on_account (transactions bank) ++ filter on_account saved ∧
    (∀ tx, tx ∈ found ↔ tx ∈ transactions bank' ∧ on_account tx) ∧
    (found = [] ↔ Forall (λ tx, ¬ on_account tx) (transactions bank')).
Proof.
  intros on_account bank'.
  exists (filter on_account (transactions bank')). split; [done|].
  split; [|split].
  - subst bank'. by rewrite save_all_transactions, filter_app.
  - intros tx. by rewrite list_elem_of_filter, (comm and).
  - split.
    + intros Hnil. apply Forall_forall. intros tx Hin Hon.
      by apply (filter_nil_not_elem_of _ _ _ Hnil Hon).
    + intros Hnone. induction Hnone as [|tx l Hoff _ IH]; [done|].
      by rewrite filter_cons_False.
Qed.

(** C8.  [AccountCreationService.create_account]: with a type string that
    is neither ["CHECKING"] nor ["SAVINGS"] it raises the
    invalid-account-type error and the state is what it was; with the value
    of a member it stores, under the new id, an account of that type whose
    balance is the initial deposit as given (nothing is checked about it),
    whose status is active, and returns the id; the repository then answers
    that account for that id. *)
Theorem create_account_cases bank uuid now account_type' initial_deposit :
  let created :=
    AccountCreationService_create_account uuid now account_type' initial_deposit bank in
  (account_type' ≠ "CHECKING" → account_type' ≠ "SAVINGS" →
     ∃ e, created = (Raised e, bank) ∧ failure_kind e = Some InvalidAccountType) ∧
  (∀ t, account_type' = AccountType_value t →
     ∃ account,
       created = (Returned uuid, set_accounts (insert uuid account) bank) ∧
       account_id account = uuid ∧
       account_type account = t ∧
       balance account = initial_deposit ∧
       status account = ACTIVE ∧
       creation_date account = now ∧
       (AccountRepository_get_account_by_id uuid created.2).1 = Returned (Some account)).
Proof.
  intros created. subst created. split.
  - intros Hc Hs. eexists. split; [by apply create_account_rejected|done].
  - intros t ->. exists (Account_init uuid now t initial_deposit).
    rewrite create_account_done. repeat (split; [done|]).
    unfold AccountRepository_get_account_by_id, gets. simpl.
    by rewrite lookup_insert_eq.
Qed.

Lemma create_account_transactions bank uuid now account_type initial_deposit :
  transactions
    (AccountCreationService_create_account uuid now account_type initial_deposit bank).2 =
  transactions bank.
Proof.
  destruct (AccountType_value_cases account_type) as [[t ->]|[Hc Hs]].
  - by rewrite create_account_done.
  - by rewrite create_account_rejected.
Qed.

Lemma quiet_cons account_id call later bank :
  quiet account_id (call :: later) bank =
    negb (moves account_id call && returns (perform call) bank)
    && quiet account_id later (after call bank).
Proof. reflexivity. Qed.

(** Calls that move nothing on an account leave its part of the log alone. *)
Lemma quiet_filter account_id later bank :
  quiet account_id later bank = true →
  filter (λ tx, tx_account_id tx = account_id) (transactions (run later bank)) =
  filter (λ tx, tx_account_id tx = account_id) (transactions bank).
Proof.
  revert bank. induction later as [|call later IH]; intros bank Hquiet; [done|].
  rewrite quiet_cons in Hquiet. apply andb_prop in Hquiet as [Hcall Hlater].
  rewrite run_cons, IH by done.
  destruct (transactions_after call bank) as [->|(tx & id & Hmoves & Hret & Hid & ->)];
    [done|].
  rewrite filter_app, filter_cons_False, filter_nil, app_nil_r; [done|].
  intros Hon. rewrite Hid in Hon. rewrite Hon in Hmoves.
  by rewrite Hmoves, Hret in Hcall.
Qed.

(** The log has nothing on an id that no stored account carries. *)
Lemma log_refers_absent bank key :
  log_refers bank → accounts bank !! key = None →
  filter (λ tx, tx_account_id tx = key) (transactions bank) = [].
Proof.
  unfold log_refers. intros Hlog Hkey.
  induction Hlog as [|tx l [account Htx] _ IH]; [done|].
  rewrite filter_cons_False; [done|]. intros Heq. congruence.
Qed.

(** C10.  [AccountCreationService.create_account] leaves the log as it is,
    whatever the initial deposit.  And in a state reached from the empty
    repositories, when it returns an id that no stored account carried,
    [get_transactions_for_account] answers the empty list for that id, and
    still does after any further calls among which no deposit or withdrawal
    on that id returns. *)
Theorem create_account_logs_nothing before uuid now account_type initial_deposit :
  let bank := run before Bank_init in
  let created :=
    AccountCreationService_create_account uuid now account_type initial_deposit bank in
  transactions created.2 = transactions bank ∧
  (accounts bank !! uuid = None → created.1 = Returned uuid →
   ∀ later, quiet uuid later created.2 = true →
     TransactionRepository_get_transactions_for_account uuid (run later created.2) =
       (Returned [], run later created.2)).
Proof.
  intros bank created. split; [apply create_account_transactions|].
  intros Hfresh _ later Hquiet.
  unfold TransactionRepository_get_transactions_for_account, gets.
  rewrite (quiet_filter _ _ _ Hquiet). subst created bank.
  rewrite create_account_transactions.
  by rewrite (log_refers_absent _ _ (log_refers_run before) Hfresh).
Qed.
End service_claims.

(** ** Balances stay non-negative *)

Section nonneg_invariant.
Context {num : Type} `{Number num}.
Variable ordinary : num → Prop.
Implicit Types (bank : Bank num) (call : Call num).

(** What the invariant needs of the arithmetic. *)
Hypothesis add_nonneg : ∀ b a,
  ordinary a → num_ge b num_zero = true → num_le a num_zero = false →
  num_ge (num_add b a) num_zero = true.
Hypothesis sub_nonneg : ∀ b a,
  ordinary a → num_ge b num_zero = true → num_le a num_zero = false →
  num_lt b a = false →
  num_ge (num_sub b a) num_zero = true.

Lemma balances_nonneg_after call bank :
  admissible ordinary call → balances_nonneg bank → balances_nonneg (after call bank).
Proof using add_nonneg sub_nonneg.
  intros Hcall Hbank. unfold after.
  destruct (perform_performed call bank)
    as [e|uuid now t d ->|uuid now id account amount -> Hkey Hle
       |uuid now id account amount -> Hkey Hle Hlt];
    [done|..]; unfold balances_nonneg in *; simpl in *.
  - by apply map_Forall_insert_2.
  - pose proof (add_nonneg _ _ Hcall (Hbank _ _ Hkey) Hle).
    apply map_Forall_insert_2; [done|]. by apply map_Forall_insert_2.
  - pose proof (sub_nonneg _ _ Hcall (Hbank _ _ Hkey) Hle Hlt).
    apply map_Forall_insert_2; [done|]. by apply map_Forall_insert_2.
Qed.

Lemma balances_nonneg_history calls bank :
  Forall (admissible ordinary) calls → balances_nonneg bank →
  Forall balances_nonneg (history calls bank).
Proof using add_nonneg sub_nonneg.
  revert bank. induction calls as [|call calls IH]; intros bank Hcalls Hbank; simpl.
  - apply Forall_nil_2.
  - apply Forall_cons in Hcalls as [Hcall Hcalls].
    pose proof (balances_nonneg_after _ _ Hcall Hbank) as Hnext.
    apply Forall_cons. split; [done|]. by apply IH.
Qed.
End nonneg_invariant.

(** *** The sign of a float sum or difference *)

(** [PrimFloat]'s operations are specified by those of [SpecFloat] on the
    image of [Prim2SF]; the sign of a rounded sum or difference is read
    there, for any precision. *)
Section spec_float_sign.
Variables prec emax : Z.
Hypothesis prec_pos : (0 < prec)%Z.
#[local] Open Scope Z_scope.

Lemma SFleb_zero_nonneg s x : SFleb (S754_zero s) x = SFnonneg x.
Proof. by destruct x as [[]|[]| |[] m e]. Qed.

(** Shifting right and rounding keep a mantissa that is [>= 0] so. *)
Lemma shr_1_nonneg mrs : 0 <= shr_m mrs → 0 <= shr_m (shr_1 mrs).
Proof. destruct mrs as [[|[m|m|]|[m|m|]] r s]; simpl; lia. Qed.

Lemma iter_pos_invariant {A} (P : A → Prop) (f : A → A) n x :
  (∀ y, P y → P (f y)) → P x → P (SpecFloat.iter_pos f n x).
Proof.
  intros Hf. revert x. induction n as [n IH|n IH|]; intros x Hx; simpl; auto.
Qed.

Lemma shr_nonneg mrs e n : 0 <= shr_m mrs → 0 <= shr_m (shr mrs e n).1.
Proof.
  intros Hm. destruct n as [|p|p]; simpl; [done| |done].
  by apply iter_pos_invariant; [apply shr_1_nonneg|].
Qed.

Lemma shr_record_of_loc_m m l : shr_m (shr_record_of_loc m l) = m.
Proof. by destruct l as [|[]]. Qed.

Lemma shr_fexp_nonneg m e l : 0 <= m → 0 <= shr_m (shr_fexp prec emax m e l).1.
Proof.
  intros Hm. unfold shr_fexp. apply shr_nonneg. by rewrite shr_record_of_loc_m.
Qed.

Lemma round_nearest_even_nonneg m l : 0 <= m → 0 <= round_nearest_even m l.
Proof.
  intros Hm. destruct l as [|[]]; simpl; [done| |done|lia].
  destruct (Z.even m); lia.
Qed.

(** Rounding a mantissa that is [>= 0], with the sign [+], gives a zero, a
    positive number or plus infinity. *)
Lemma binary_round_aux_nonneg mx ex lx :
  0 <= mx → SFnonneg (binary_round_aux prec emax false mx ex lx) = true.
Proof.
  intros Hm. unfold binary_round_aux.
  pose proof (shr_fexp_nonneg mx ex lx Hm) as H1.
  destruct (shr_fexp prec emax mx ex lx) as [mrs' e']. simpl in H1.
  pose proof (shr_fexp_nonneg _ e' loc_Exact
                (round_nearest_even_nonneg _ (loc_of_shr_record mrs') H1)) as H2.
  destruct (shr_fexp prec emax _ e' loc_Exact) as [mrs'' e'']. simpl in H2.
  destruct (shr_m mrs'') as [|m|m]; [done| |lia].
  by destruct (e'' <=? emax - prec).
Qed.

Lemma binary_normalize_nonneg m e :
  0 <= m → SFnonneg (binary_normalize prec emax m e false) = true.
Proof.
  intros Hm. destruct m as [|m|m]; [done| |lia]. simpl. unfold binary_round.
  destruct (shl_align _ _ _) as [mz ez]. by apply binary_round_aux_nonneg.
Qed.

(** A mantissa of [d] binary digits lies in [2^(d-1), 2^d). *)
Lemma digits2_pos_bounds m :
  2 ^ (Zpos (digits2_pos m) - 1) <= Zpos m < 2 ^ Zpos (digits2_pos m).
Proof.
  induction m as [m IH|m IH|]; simpl digits2_pos; [| |simpl; lia].
  - rewrite Pos2Z.inj_succ.
    replace (Z.succ (Zpos (digits2_pos m)) - 1)
      with (Z.succ (Zpos (digits2_pos m) - 1)) by lia.
    rewrite !Z.pow_succ_r by lia. lia.
  - rewrite Pos2Z.inj_succ.
    replace (Z.succ (Zpos (digits2_pos m)) - 1)
      with (Z.succ (Zpos (digits2_pos m) - 1)) by lia.
    rewrite !Z.pow_succ_r by lia. lia.
Qed.

Lemma iter_xO_double m d : 2 * Zpos m <= Zpos (Pos.iter xO m d).
Proof.
  induction d as [|d IH] using Pos.peano_ind.
  - simpl. lia.
  - rewrite Pos.iter_succ. lia.
Qed.

(** Of two valid positive finite numbers of which the first is not below
    the second, the aligned mantissas are in the same order. *)
Lemma aligned_mantissas_ordered mb eb ma ea :
  bounded prec emax mb eb = true → bounded prec emax ma ea = true →
  SFltb (S754_finite false mb eb) (S754_finite false ma ea) = false →
  let ez := Z.min eb ea in
  0 <= Zpos (shl_align mb eb ez).1 - Zpos (shl_align ma ea ez).1.
Proof using prec_pos.
  unfold bounded, canonical_mantissa, fexp, emin, SFltb, SFcompare.
  intros [Hb _]%andb_prop [Ha _]%andb_prop Hlt. cbv zeta.
  apply Z.eqb_eq in Ha, Hb.
  destruct (Z.compare_spec eb ea) as [->|Hlt'|Hgt]; [|done|].
  - rewrite Z.min_id. unfold shl_align. rewrite Z.sub_diag. cbn [fst].
    fold (Pos.compare mb ma) in Hlt.
    destruct (Pos.compare_spec mb ma); [lia|done|lia].
  - rewrite Z.min_r by lia. unfold shl_align. rewrite Z.sub_diag.
    destruct (ea - eb) as [|d|d] eqn:Hd; [lia|lia|]. cbn [fst].
    pose proof (digits2_pos_bounds mb) as Hmb.
    pose proof (digits2_pos_bounds ma) as Hma.
    pose proof (iter_xO_double mb d) as Hsh.
    assert (Zpos (digits2_pos mb) = prec) as Hdb by lia.
    assert (Zpos (digits2_pos ma) <= prec) as Hda by lia.
    rewrite Hdb in Hmb.
    assert (2 ^ Zpos (digits2_pos ma) <= 2 ^ prec) by (apply Z.pow_le_mono_r; lia).
    assert (2 ^ prec = 2 * 2 ^ (prec - 1)) as Hp.
    { replace prec with (Z.succ (prec - 1)) at 1 by lia. rewrite Z.pow_succ_r; lia. }
    lia.
Qed.

(** The sum of two numbers that are [>= 0] is [>= 0]. *)
Lemma SFadd_nonneg b a :
  SFnonneg b = true → SFnonneg a = true → SFnonneg (SFadd prec emax b a) = true.
Proof.
  destruct b as [sb|[]| |[] mb eb], a as [sa|[]| |[] ma ea]; try done.
  - by destruct sb, sa.
  - intros _ _. unfold SFadd, cond_Zopp. apply binary_normalize_nonneg. lia.
Qed.

(** A positive finite number taken from one that is [>= 0] and not below it
    leaves a number that is [>= 0]. *)
Lemma SFsub_nonneg b a :
  SpecFloat.valid_binary prec emax b = true → SpecFloat.valid_binary prec emax a = true →
  SFnonneg b = true →
  SFleb a (S754_zero false) = false →
  match a with S754_finite _ _ _ => true | _ => false end = true →
  SFltb b a = false →
  SFnonneg (SFsub prec emax b a) = true.
Proof using prec_pos.
  destruct a as [sa|[]| |[] ma ea]; try done.
  destruct b as [sb|[]| |[] mb eb]; try done.
  intros Hb Ha _ _ _ Hlt. unfold SFsub, cond_Zopp.
  apply binary_normalize_nonneg.
  by apply (aligned_mantissas_ordered mb eb ma ea).
Qed.
End spec_float_sign.

Lemma Prim2SF_zero : Prim2SF PrimFloat.zero = S754_zero false.
Proof. reflexivity. Qed.

Lemma Prim2SF_infinity : Prim2SF PrimFloat.infinity = S754_infinity false.
Proof. reflexivity. Qed.

Lemma float_nonneg_spec x : PrimFloat.leb PrimFloat.zero x = SFnonneg (Prim2SF x).
Proof. by rewrite leb_spec, Prim2SF_zero, SFleb_zero_nonneg. Qed.

Lemma is_finite_spec x :
  PrimFloat.is_finite x = true →
  match Prim2SF x with S754_nan | S754_infinity _ => false | _ => true end = true.
Proof.
  unfold is_finite, is_nan, is_infinity.
  rewrite !FloatAxioms.eqb_spec, abs_spec, Prim2SF_infinity.
  by destruct (Prim2SF x) as [[]|[]| |[] m e].
Qed.

(** A finite float that is not [<= 0] is a positive finite number. *)
Lemma float_positive_finite a :
  PrimFloat.is_finite a = true → PrimFloat.leb a PrimFloat.zero = false →
  ∃ m e, Prim2SF a = S754_finite false m e.
Proof.
  intros Hfin%is_finite_spec. rewrite leb_spec, Prim2SF_zero.
  destruct (Prim2SF a) as [[]|[]| |[] m e]; try done. by exists m, e.
Qed.

Lemma float_add_nonneg (b a : float) :
  float_ordinary a → num_ge b num_zero = true → num_le a num_zero = false →
  num_ge (num_add b a) num_zero = true.
Proof.
  unfold float_ordinary, num_ge. simpl. intros Hfin Hb Ha.
  destruct (float_positive_finite a Hfin Ha) as (m & e & HA).
  rewrite float_nonneg_spec in *. rewrite add_spec.
  apply SFadd_nonneg; [done|]. by rewrite HA.
Qed.

Lemma float_sub_nonneg (b a : float) :
  float_ordinary a → num_ge b num_zero = true → num_le a num_zero = false →
  num_lt b a = false →
  num_ge (num_sub b a) num_zero = true.
Proof.
  unfold float_ordinary, num_ge. simpl. intros Hfin Hb Ha Hlt.
  destruct (float_positive_finite a Hfin Ha) as (m & e & HA).
  rewrite float_nonneg_spec in *. rewrite sub_spec.
  rewrite ltb_spec in Hlt. rewrite leb_spec, Prim2SF_zero in Ha.
  apply SFsub_nonneg; try done.
  - apply Prim2SF_valid.
  - apply Prim2SF_valid.
  - by rewrite HA.
Qed.

Lemma int_add_nonneg (b a : Z) :
  int_ordinary a → num_ge b num_zero = true → num_le a num_zero = false →
  num_ge (num_add b a) num_zero = true.
Proof. unfold num_ge. simpl. lia. Qed.

Lemma int_sub_nonneg (b a : Z) :
  int_ordinary a → num_ge b num_zero = true → num_le a num_zero = false →
  num_lt b a = false →
  num_ge (num_sub b a) num_zero = true.
Proof. unfold num_ge. simpl. lia. Qed.

(** C1, as amended.  In every sequence of calls on the empty repositories in
    which every account is opened with an initial deposit [>= 0], every
    stored account has [balance >= 0] after every call: with integer
    amounts always, and with floats when the amounts deposited and withdrawn
    are finite (neither NaN nor an infinity). *)
Theorem balances_stay_nonneg :
  (∀ calls : list (Call Z),
     Forall (admissible int_ordinary) calls →
     Forall balances_nonneg (history calls Bank_init)) ∧
  (∀ calls : list (Call float),
     Forall (admissible float_ordinary) calls →
     Forall balances_nonneg (history calls Bank_init)).
Proof.
  split; intros calls Hcalls.
  - apply (balances_nonneg_history int_ordinary int_add_nonneg int_sub_nonneg);
      [done|apply map_Forall_empty].
  - apply (balances_nonneg_history float_ordinary float_add_nonneg float_sub_nonneg);
      [done|apply map_Forall_empty].
Qed.

(** ** Exact amounts: Python ints *)

Section int_claims.
Implicit Types (self : Account Z).
#[local] Open Scope Z_scope.

End int_claims.

(** ** How far a deposit or a withdrawal moves the balance *)

(** C2, as amended.  [Account.withdraw(amount)], for every type of amounts:
    with [amount <= 0] it raises the invalid-amount error; otherwise, with
    [amount > balance], the insufficient-balance error, the account being as
    it was in both cases; otherwise it returns and has replaced the balance
    by [balance - amount] as the amounts' arithmetic computes it, and nothing
    else.  With integer amounts that is a decrease by exactly [amount], to a
    balance [>= 0].  With floats the new balance is the binary64 difference
    of [SpecFloat], rounded. *)
Theorem withdraw_moves_as_computed :
  (∀ (num : Type) (N : Number num) (self : Account num) (amount : num),
     (num_le amount num_zero = true →
        ∃ e, Account_withdraw amount self = (Raised e, self) ∧
             failure_kind e = Some InvalidAmount) ∧
     (num_le amount num_zero = false → num_gt amount (balance self) = true →
        ∃ e, Account_withdraw amount self = (Raised e, self) ∧
             failure_kind e = Some InsufficientBalance) ∧
     (num_le amount num_zero = false → num_gt amount (balance self) = false →
        Account_withdraw amount self =
          (Returned (), set_balance (num_sub (balance self) amount) self))) ∧
  (∀ (self : Account Z) (amount : Z),
     num_le amount num_zero = false → num_gt amount (balance self) = false →
     ∃ self', Account_withdraw amount self = (Returned (), self') ∧
              self' = set_balance (balance self') self ∧
              (balance self' + amount = balance self)%Z ∧
              (0 ≤ balance self' < balance self)%Z) ∧
  (∀ (self : Account float) (amount : float),
     num_le amount num_zero = false → num_gt amount (balance self) = false →
     ∃ self', Account_withdraw amount self = (Returned (), self') ∧
              self' = set_balance (balance self') self ∧
              Prim2SF (balance self') =
                SF64sub (Prim2SF (balance self)) (Prim2SF amount)).
Proof.
  split; [|split].
  - intros num N self amount. split; [|split].
    + intros Hle. eexists. split; [by apply Account_withdraw_rejects|done].
    + intros Hle Hgt. eexists. split; [by apply Account_withdraw_short|done].
    + intros Hle Hgt. by apply Account_withdraw_accepts.
  - intros self amount Hle Hgt. eexists.
    split; [by apply Account_withdraw_accepts|]. split; [done|].
    unfold num_gt in Hgt. simpl in *. lia.
  - intros self amount Hle Hgt. eexists.
    split; [by apply Account_withdraw_accepts|]. split; [done|].
    simpl. apply sub_spec.
Qed.

(** C5, as amended.  [Account.deposit(amount)], for every type of amounts:
    with [amount <= 0] it raises the invalid-amount error and the account is
    as it was; with any other amount, however large, it returns and has
    replaced the balance by [balance + amount] as the amounts' arithmetic
    computes it, and nothing else.  With integer amounts that is an increase
    by exactly [amount].  With floats the new balance is the binary64 sum of
    [SpecFloat], rounded. *)
Theorem deposit_moves_as_computed :
  (∀ (num : Type) (N : Number num) (self : Account num) (amount : num),
     (num_le amount num_zero = true →
        ∃ e, Account_deposit amount self = (Raised e, self) ∧
             failure_kind e = Some InvalidAmount) ∧
     (num_le amount num_zero = false →
        Account_deposit amount self =
          (Returned (), set_balance (num_add (balance self) amount) self))) ∧
  (∀ (self : Account Z) (amount : Z),
     num_le amount num_zero = false →
     ∃ self', Account_deposit amount self = (Returned (), self') ∧
              self' = set_balance (balance self') self ∧
              (balance self' - amount = balance self)%Z ∧
              (balance self < balance self')%Z) ∧
  (∀ (self : Account float) (amount : float),
     num_le amount num_zero = false →
     ∃ self', Account_deposit amount self = (Returned (), self') ∧
              self' = set_balance (balance self') self ∧
              Prim2SF (balance self') =
                SF64add (Prim2SF (balance self)) (Prim2SF amount)).
Proof.
  split; [|split].
  - intros num N self amount. split.
    + intros Hle. eexists. split; [by apply Account_deposit_rejects|done].
    + intros Hle. by apply Account_deposit_accepts.
  - intros self amount Hle. eexists.
    split; [by apply Account_deposit_accepts|]. split; [done|].
    simpl in *. lia.
  - intros self amount Hle. eexists.
    split; [by apply Account_deposit_accepts|]. split; [done|].
    simpl. apply add_spec.
Qed.

(** ** Concrete runs *)

Section float_runs.
#[local] Set Warnings "-inexact-float".
#[local] Open Scope float_scope.
Import Scenario.

(** The scenario of the specification: the balances after each call, and
    the log of the account at the end. *)
Example scenario_balances :
  (λ bank, balance <$> accounts bank !! "acc-1") <$> history calls Bank_init =
    [Some 100; Some 150; Some 150; Some 0].
Proof. vm_compute. reflexivity. Qed.

Example scenario_log :
  (TransactionRepository_get_transactions_for_account "acc-1"
     (run calls Bank_init)).1 =
    Returned [ Transaction_init "tx-1" 1%Z "acc-1" DEPOSIT 50;
               Transaction_init "tx-3" 3%Z "acc-1" WITHDRAW 150 ].
Proof. vm_compute. reflexivity. Qed.

(** C1 fails as stated: an account opened with the initial deposit -5.0
    is stored with the balance -5.0. *)
Lemma negative_opening_balance :
  let bank := after overdrawn_opening Bank_init in
  (perform overdrawn_opening Bank_init).1 = Returned (AccountId "acc-2") ∧
  accounts bank !! "acc-2" = Some overdrawn ∧
  balance overdrawn = (-5) ∧
  num_ge (balance overdrawn) num_zero = false ∧
  ¬ balances_nonneg bank.
Proof.
  assert (accounts (after overdrawn_opening Bank_init) !! "acc-2" = Some overdrawn)
    as Hkey by (vm_compute; reflexivity).
  repeat split; try (vm_compute; reflexivity).
  intros Hall. specialize (Hall _ _ Hkey). vm_compute in Hall. discriminate.
Qed.

(** With floats a non-negative opening is not enough either: infinity
    withdrawn from infinity leaves a balance that is not a number. *)
Remark infinity_withdrawn_from_infinity :
  let self := Account_init "acc-4" 6%Z CHECKING infinity in
  num_ge (balance self) num_zero = true ∧
  (Account_withdraw infinity self).1 = Returned () ∧
  num_ge (balance (Account_withdraw infinity self).2) num_zero = false.
Proof. repeat split; vm_compute; reflexivity. Qed.

(** C4 fails as stated: on the account opened with -5.0, the amount -1.0
    exceeds the balance, and [withdraw] raises the invalid-amount error. *)
Lemma withdraw_exceeding_negative_balance :
  num_gt (-1) (balance overdrawn) = true ∧
  Account_withdraw (-1) overdrawn =
    (Raised (ValueError "Withdrawal amount must be positive."), overdrawn) ∧
  failure_kind (ValueError "Withdrawal amount must be positive.")
    ≠ Some InsufficientBalance ∧
  TransactionService_withdraw "tx-4" 7%Z "acc-2" (-1) (after overdrawn_opening Bank_init) =
    (Raised (ValueError "Withdrawal amount must be positive."),
     after overdrawn_opening Bank_init).
Proof. repeat split; try (vm_compute; reflexivity). vm_compute. discriminate. Qed.

(** C2 fails as stated: on the balance 1e16, withdrawing 1.0 returns and the
    balance is still 1e16; it went down by 0.0, not by 1.0. *)
Lemma withdraw_one_from_1e16 :
  let withdrawn := Account_withdraw 1 Rounding.large in
  num_le 1 (num_zero (num := float)) = false ∧
  num_gt 1 (balance Rounding.large) = false ∧
  withdrawn = (Returned (), Rounding.large) ∧
  num_sub (balance Rounding.large) (balance withdrawn.2) = 0 ∧
  PrimFloat.eqb (num_sub (balance Rounding.large) (balance withdrawn.2)) 1 = false.
Proof. repeat split; vm_compute; reflexivity. Qed.

(** C5 fails as stated: on the balance 1e16, depositing 1.0 returns and the
    balance is still 1e16; it went up by 0.0, not by 1.0. *)
Lemma deposit_one_to_1e16 :
  let deposited := Account_deposit 1 Rounding.large in
  num_le 1 (num_zero (num := float)) = false ∧
  deposited = (Returned (), Rounding.large) ∧
  num_sub (balance deposited.2) (balance Rounding.large) = 0 ∧
  PrimFloat.eqb (num_sub (balance deposited.2) (balance Rounding.large)) 1 = false.
Proof. repeat split; vm_compute; reflexivity. Qed.
End float_runs.

(** ** The theorems at concrete inputs *)

Section witnesses.
#[local] Set Warnings "-inexact-float".
#[local] Open Scope float_scope.
Import Scenario.

Example funded_holds : accounts funded !! "acc-1" = Some funded_account.
Proof. vm_compute. reflexivity. Qed.

(** The scenario, with ints and with floats, keeps its balances [>= 0]. *)
Lemma balances_stay_nonneg_witness :
  (Forall (admissible int_ordinary) int_calls ∧
   Forall balances_nonneg (history int_calls Bank_init)) ∧
  (Forall (admissible float_ordinary) calls ∧
   Forall balances_nonneg (history calls Bank_init)).
Proof.
  assert (Forall (admissible int_ordinary) int_calls) as Hint
    by (repeat constructor).
  assert (Forall (admissible float_ordinary) calls) as Hfloat
    by (repeat constructor).
  split.
  - split; [exact Hint|exact (proj1 balances_stay_nonneg int_calls Hint)].
  - split; [exact Hfloat|exact (proj2 balances_stay_nonneg calls Hfloat)].
Defined.

(** Withdrawing -1.0, 200.0 and 150.0 from a balance of 150.0; 30 from
    100 whole units; 1.0 from 1e16. *)
Lemma withdraw_moves_as_computed_witness :
  (∃ e, Account_withdraw (-1) funded_account = (Raised e, funded_account) ∧
        failure_kind e = Some InvalidAmount) ∧
  (∃ e, Account_withdraw 200 funded_account = (Raised e, funded_account) ∧
        failure_kind e = Some InsufficientBalance) ∧
  Account_withdraw 150 funded_account = (Returned (), set_balance 0 funded_account) ∧
  (∃ self', Account_withdraw 30%Z Rounding.whole = (Returned (), self') ∧
            self' = set_balance (balance self') Rounding.whole ∧
            (balance self' + 30 = 100)%Z ∧ (0 ≤ balance self' < 100)%Z) ∧
  (∃ self', Account_withdraw 1 Rounding.large = (Returned (), self') ∧
            self' = set_balance (balance self') Rounding.large ∧
            Prim2SF (balance self') =
              SF64sub (Prim2SF (balance Rounding.large)) (Prim2SF 1)).
Proof.
  pose proof withdraw_moves_as_computed as (Hany & Hint & Hfloat).
  split; [|split; [|split; [|split]]].
  - exact (proj1 (Hany float _ funded_account (-1)) eq_refl).
  - exact (proj1 (proj2 (Hany float _ funded_account 200)) eq_refl eq_refl).
  - exact (proj2 (proj2 (Hany float _ funded_account 150)) eq_refl eq_refl).
  - exact (Hint Rounding.whole 30%Z eq_refl eq_refl).
  - exact (Hfloat Rounding.large 1 eq_refl eq_refl).
Defined.

(** Depositing 25.0 to, and withdrawing 25.0 from, the funded account. *)
Lemma services_update_and_append_witness :
  ids_match funded ∧
  one_update_one_append DEPOSIT num_add "tx-8" 12%Z "acc-1" 25 funded
    (TransactionService_deposit "tx-8" 12%Z "acc-1" 25 funded) ∧
  one_update_one_append WITHDRAW num_sub "tx-8" 12%Z "acc-1" 25 funded
    (TransactionService_withdraw "tx-8" 12%Z "acc-1" 25 funded).
Proof.
  assert (ids_match funded) as Hids by apply ids_match_run.
  split; [exact Hids|].
  exact (services_update_and_append funded "tx-8" 12%Z "acc-1" 25 Hids).
Defined.

(** Withdrawing 200.0 from a balance of 150.0. *)
Lemma withdraw_exceeding_balance_witness :
  num_gt 200 (balance funded_account) = true ∧
  ∃ e, Account_withdraw 200 funded_account = (Raised e, funded_account) ∧
       failure_kind e = Some InsufficientBalance.
Proof.
  split; [reflexivity|].
  exact (withdraw_exceeding_balance funded_account 200 eq_refl).
Defined.

(** Depositing 0.0 and 50.0 to a balance of 150.0; 30 to 100 whole units;
    1.0 to 1e16. *)
Lemma deposit_moves_as_computed_witness :
  (∃ e, Account_deposit 0 funded_account = (Raised e, funded_account) ∧
        failure_kind e = Some InvalidAmount) ∧
  Account_deposit 50 funded_account = (Returned (), set_balance 200 funded_account) ∧
  (∃ self', Account_deposit 30%Z Rounding.whole = (Returned (), self') ∧
            self' = set_balance (balance self') Rounding.whole ∧
            (balance self' - 30 = 100)%Z ∧ (100 < balance self')%Z) ∧
  (∃ self', Account_deposit 1 Rounding.large = (Returned (), self') ∧
            self' = set_balance (balance self') Rounding.large ∧
            Prim2SF (balance self') =
              SF64add (Prim2SF (balance Rounding.large)) (Prim2SF 1)).
Proof.
  pose proof deposit_moves_as_computed as (Hany & Hint & Hfloat).
  split; [|split; [|split]].
  - exact (proj1 (Hany float _ funded_account 0) eq_refl).
  - exact (proj2 (Hany float _ funded_account 50) eq_refl).
  - exact (Hint Rounding.whole 30%Z eq_refl).
  - exact (Hfloat Rounding.large 1 eq_refl).
Defined.


(** Opening an account of type ["checking"], and one of type ["SAVINGS"]
    with -5.0. *)
Lemma create_account_cases_witness :
  (∃ e, AccountCreationService_create_account "acc-1" 0%Z "checking" (-5) Bank_init =
          (Raised e, Bank_init) ∧
        failure_kind e = Some InvalidAccountType) ∧
  (∃ account,
     AccountCreationService_create_account "acc-2" 4%Z "SAVINGS" (-5) Bank_init =
       (Returned "acc-2", set_accounts (insert "acc-2" account) Bank_init) ∧
     account_id account = "acc-2" ∧
     account_type account = SAVINGS ∧
     balance account = (-5) ∧
     status account = ACTIVE ∧
     creation_date account = 4%Z ∧
     (AccountRepository_get_account_by_id "acc-2"
        (AccountCreationService_create_account "acc-2" 4%Z "SAVINGS" (-5)
           Bank_init).2).1 = Returned (Some account)).
Proof.
  split.
  - by apply (proj1 (create_account_cases Bank_init "acc-1" 0%Z "checking" (-5))).
  - by apply (proj2 (create_account_cases Bank_init "acc-2" 4%Z "SAVINGS" (-5)) SAVINGS).
Defined.

(** Withdrawing -1.0 from a balance of -5.0. *)
Lemma withdraw_amount_checked_first_witness :
  num_le (-1) num_zero = true ∧
  num_gt (-1) (balance overdrawn) = true ∧
  ∃ e, Account_withdraw (-1) overdrawn = (Raised e, overdrawn) ∧
       failure_kind e = Some InvalidAmount ∧
       failure_kind e ≠ Some InsufficientBalance.
Proof.
  split; [reflexivity|]. split; [reflexivity|].
  exact (withdraw_amount_checked_first overdrawn (-1) eq_refl).
Defined.

(** Opening "acc-5" with 100.0 after the scenario, then the idle calls. *)
Lemma create_account_logs_nothing_witness :
  let bank := run calls Bank_init in
  let created := AccountCreationService_create_account "acc-5" 8%Z "SAVINGS" 100 bank in
  accounts bank !! "acc-5" = None ∧
  created.1 = Returned "acc-5" ∧
  quiet "acc-5" idle_calls created.2 = true ∧
  transactions created.2 = transactions bank ∧
  TransactionRepository_get_transactions_for_account "acc-5" (run idle_calls created.2) =
    (Returned [], run idle_calls created.2).
Proof.
  intros bank created.
  assert (accounts bank !! "acc-5" = None) as Hfresh by (vm_compute; reflexivity).
  assert (created.1 = Returned "acc-5") as Hret by (vm_compute; reflexivity).
  assert (quiet "acc-5" idle_calls created.2 = true) as Hquiet
    by (vm_compute; reflexivity).
  pose proof (create_account_logs_nothing calls "acc-5" 8%Z "SAVINGS" 100) as [Hlog Hget].
  split; [exact Hfresh|]. split; [exact Hret|]. split; [exact Hquiet|].
  split; [exact Hlog|]. exact (Hget Hfresh Hret idle_calls Hquiet).
Defined.
End witnesses.

(** * Further properties of the code *)

(** ** The repositories *)

Section repository_properties.
Context {num : Type} `{Number num}.
Implicit Types (bank : Bank num) (account : Account num).

(** X1.  [AccountRepository.create_account] returns the account's id and
    stores the account under it, replacing whatever was stored there (there
    is no check for an id already in use); [get_account_by_id] then answers
    that account for the id and what it answered before for any other id;
    the log is not touched. *)
Theorem create_then_get bank account key :
  let created := AccountRepository_create_account account bank in
  created.1 = Returned (account_id account) ∧
  AccountRepository_get_account_by_id (account_id account) created.2 =
    (Returned (Some account), created.2) ∧
  (key ≠ account_id account →
   AccountRepository_get_account_by_id key created.2 =
     (Returned (accounts bank !! key), created.2)) ∧
  transactions created.2 = transactions bank.
Proof.
  unfold AccountRepository_get_account_by_id, gets. simpl.
  split; [done|]. split; [by rewrite lookup_insert_eq|]. split; [|done].
  intros Hkey. by rewrite lookup_insert_ne.
Qed.

(** X2.  [AccountRepository.update_account] does not ask that the account be
    stored already: it leaves the same state as [create_account] would.  Of
    two updates under one id the later wins, and [get_account_by_id] answers
    it. *)
Theorem update_account_last_write_wins bank first second :
  account_id first = account_id second →
  let once := (AccountRepository_update_account second bank).2 in
  let twice :=
    (AccountRepository_update_account second
       (AccountRepository_update_account first bank).2).2 in
  twice = once ∧
  once = (AccountRepository_create_account second bank).2 ∧
  AccountRepository_get_account_by_id (account_id second) twice =
    (Returned (Some second), twice).
Proof.
  intros Hid. unfold AccountRepository_get_account_by_id, gets. simpl.
  unfold set_accounts. simpl. rewrite Hid, insert_insert_eq.
  split; [done|]. split; [done|]. by rewrite lookup_insert_eq.
Qed.
End repository_properties.

(** ** Sequences of calls *)

Section sequence_properties.
Context {num : Type} `{Number num}.
Implicit Types (bank : Bank num) (account : Account num) (amount : num).
Implicit Types (tx : Transaction num) (call : Call num).

Lemma performed_raised_inv call bank e bank' :
  performed call bank (Raised e) bank' → bank' = bank.
Proof. by inversion 1. Qed.

(** X3.  A call that raises leaves both repositories exactly as they were,
    whichever call it is and whatever it raises. *)
Theorem failed_call_changes_nothing call bank e :
  (perform call bank).1 = Raised e → after call bank = bank.
Proof.
  intros Hraised. unfold after.
  pose proof (perform_performed call bank) as Hp. rewrite Hraised in Hp.
  by apply performed_raised_inv in Hp.
Qed.

Lemma transactions_after_prefix call bank :
  transactions bank `prefix_of` transactions (after call bank).
Proof.
  destruct (transactions_after call bank) as [->|(tx & id & _ & _ & _ & ->)];
    [done|]. by apply prefix_app_r.
Qed.

(** X4.  The log is append-only: whatever calls are performed, the log
    before is an initial segment of the log after; no entry is removed,
    changed or moved. *)
Theorem log_append_only calls bank :
  transactions bank `prefix_of` transactions (run calls bank).
Proof.
  apply (run_invariant (λ bank', transactions bank `prefix_of` transactions bank'));
    [|done].
  intros call bank' Hprefix. etrans; [exact Hprefix|apply transactions_after_prefix].
Qed.

Lemma returned_moves_step call bank :
  length (transactions (after call bank)) =
    (length (transactions bank)
     + (if is_move call && returns (perform call) bank then 1 else 0))%nat.
Proof.
  unfold after, returns.
  destruct (perform_performed call bank)
    as [e|uuid now t d ->|uuid now id account amount -> _ _
       |uuid now id account amount -> _ _ _]; simpl.
  - rewrite andb_false_r. lia.
  - lia.
  - rewrite length_app. simpl. lia.
  - rewrite length_app. simpl. lia.
Qed.

(** X5.  The log grows by exactly one entry for each deposit or withdrawal
    that returns, and by none for any other call. *)
Theorem log_length_counts_moves calls bank :
  length (transactions (run calls bank)) =
    (length (transactions bank) + returned_moves calls bank)%nat.
Proof.
  revert bank. induction calls as [|call calls IH]; intros bank; simpl; [lia|].
  change (fold_left _ calls (after call bank)) with (run calls (after call bank)).
  rewrite IH, returned_moves_step. lia.
Qed.

(** X6.  On a state whose accounts are stored under their own ids, a call
    changes no stored account but the one it names. *)
Theorem call_touches_one_account call bank key :
  ids_match bank → names call ≠ key →
  accounts (after call bank) !! key = accounts bank !! key.
Proof.
  intros Hids Hkey. unfold after.
  destruct (perform_performed call bank)
    as [e|uuid now t d ->|uuid now id account amount -> Hid _
       |uuid now id account amount -> Hid _ _]; simpl in *; [done|..].
  - by rewrite lookup_insert_ne.
  - pose proof (Hids _ _ Hid) as Hown. simpl in Hown.
    rewrite Hown. by rewrite !lookup_insert_ne.
  - pose proof (Hids _ _ Hid) as Hown. simpl in Hown.
    rewrite Hown. by rewrite !lookup_insert_ne.
Qed.

Lemma account_kept_step call bank id account :
  ids_match bank → accounts bank !! id = Some account → opens id call = false →
  ∃ account', accounts (after call bank) !! id = Some account' ∧
              account' = set_balance (balance account') account.
Proof.
  intros Hids Hid Hopens.
  destruct (decide (names call = id)) as [Hname|Hname].
  - unfold after.
    destruct (perform_performed call bank)
      as [e|uuid now t d ->|uuid now id' stored amount -> Hkey _
         |uuid now id' stored amount -> Hkey _ _]; simpl in *.
    + exists account. by rewrite set_balance_same.
    + subst uuid. by rewrite bool_decide_eq_true_2 in Hopens.
    + subst id'. assert (stored = account) as -> by congruence.
      rewrite (Hids _ _ Hid). simpl. rewrite lookup_insert_eq. by eexists.
    + subst id'. assert (stored = account) as -> by congruence.
      rewrite (Hids _ _ Hid). simpl. rewrite lookup_insert_eq. by eexists.
  - exists account. rewrite call_touches_one_account by done.
    by rewrite set_balance_same.
Qed.

(** X7.  A stored account is never removed, and deposits and withdrawals
    change nothing of it but the balance: through any calls none of which
    opens an account under its id, the id still answers the same account up
    to its balance. *)
Theorem account_keeps_identity calls bank id account :
  ids_match bank → accounts bank !! id = Some account →
  forallb (λ call, negb (opens id call)) calls = true →
  ∃ account', accounts (run calls bank) !! id = Some account' ∧
              account' = set_balance (balance account') account.
Proof.
  revert bank account.
  induction calls as [|call calls IH]; intros bank account Hids Hid Hcalls.
  - exists account. by rewrite set_balance_same.
  - simpl in Hcalls. apply andb_prop in Hcalls as [Hcall Hcalls].
    apply negb_true_iff in Hcall.
    destruct (account_kept_step call bank id account Hids Hid Hcall)
      as (account1 & Hid1 & Heq1).
    destruct (IH (after call bank) account1 (ids_match_after _ _ Hids) Hid1 Hcalls)
      as (account' & Hid' & Heq').
    exists account'. rewrite run_cons. split; [done|].
    rewrite Heq', Heq1. reflexivity.
Qed.

Lemma active_after call bank :
  map_Forall (λ _ account, status account = ACTIVE) (accounts bank) →
  map_Forall (λ _ account, status account = ACTIVE) (accounts (after call bank)).
Proof.
  intros Hact. unfold after.
  destruct (perform_performed call bank)
    as [e|uuid now t d _|uuid now id account amount _ Hid _
       |uuid now id account amount _ Hid _ _]; simpl; [done|..].
  - by apply map_Forall_insert_2.
  - pose proof (Hact _ _ Hid).
    apply map_Forall_insert_2; [done|]. by apply map_Forall_insert_2.
  - pose proof (Hact _ _ Hid).
    apply map_Forall_insert_2; [done|]. by apply map_Forall_insert_2.
Qed.

(** X8.  In every state reached from the empty repositories every stored
    account is active (nothing ever closes one) and is stored under its own
    id. *)
Theorem stored_accounts_active calls :
  map_Forall (λ key account, status account = ACTIVE ∧ account_id account = key)
    (accounts (run calls (Bank_init (num := num)))).
Proof.
  assert (map_Forall (λ _ account, status account = ACTIVE)
            (accounts (run calls (Bank_init (num := num))))) as Hact.
  { apply (run_invariant (λ bank,
      map_Forall (λ _ account, status account = ACTIVE) (accounts bank)));
      [apply active_after|apply map_Forall_empty]. }
  intros key account Hkey. split; [by apply (Hact key)|].
  by apply (ids_match_run calls key).
Qed.

Lemma positive_after call bank :
  Forall (λ tx, num_le (amount tx) num_zero = false) (transactions bank) →
  Forall (λ tx, num_le (amount tx) num_zero = false) (transactions (after call bank)).
Proof.
  intros Hpos. unfold after.
  destruct (perform_performed call bank)
    as [e|uuid now t d _|uuid now id account a _ _ Hle
       |uuid now id account a _ _ Hle _]; simpl; [done|done|..].
  - apply Forall_app. split; [done|]. by apply Forall_singleton.
  - apply Forall_app. split; [done|]. by apply Forall_singleton.
Qed.

(** X9.  In every state reached from the empty repositories every logged
    transaction has an amount that is not [<= 0] and is on an account that
    is stored. *)
Theorem logged_transactions_sound calls :
  let bank := run calls (Bank_init (num := num)) in
  Forall (λ tx, num_le (amount tx) num_zero = false ∧
                is_Some (accounts bank !! tx_account_id tx))
    (transactions bank).
Proof.
  intros bank. apply Forall_and. split; [|apply log_refers_run].
  apply (run_invariant (λ bank,
    Forall (λ tx, num_le (amount tx) num_zero = false) (transactions bank)));
    [apply positive_after|apply Forall_nil_2].
Qed.
End sequence_properties.

(** ** The ledger reconciles, in integer amounts *)

Section reconciliation.
Implicit Types (bank : Bank Z) (account : Account Z) (call : Call Z).
#[local] Open Scope Z_scope.

Lemma foldr_signed_shift (log : list (Transaction Z)) (c : Z) :
  foldr (λ tx acc, signed_amount tx + acc) c log =
  foldr (λ tx acc, signed_amount tx + acc) 0 log + c.
Proof. induction log as [|tx log IH]; simpl; [done|]. rewrite IH. lia. Qed.

Lemma net_snoc id (log : list (Transaction Z)) tx :
  net id (log ++ [tx]) =
  net id log + (if decide (tx_account_id tx = id) then signed_amount tx else 0).
Proof.
  unfold net. rewrite filter_app, foldr_app.
  destruct (decide (tx_account_id tx = id)) as [Hid|Hid].
  - rewrite filter_cons_True by done. rewrite filter_nil. simpl.
    rewrite foldr_signed_shift. lia.
  - rewrite filter_cons_False by done. rewrite filter_nil. simpl. lia.
Qed.

Lemma reconcile_step call bank id account :
  ids_match bank → accounts bank !! id = Some account → opens id call = false →
  ∃ account', accounts (after call bank) !! id = Some account' ∧
    balance account' - net id (transactions (after call bank)) =
    balance account - net id (transactions bank).
Proof.
  intros Hids Hid Hopens. unfold after.
  destruct (perform_performed call bank)
    as [e|uuid now t d ->|uuid now id' stored amount -> Hkey _
       |uuid now id' stored amount -> Hkey _ _]; simpl in *.
  - by exists account.
  - exists account. split; [|done]. rewrite lookup_insert_ne; [done|].
    intros ->. by rewrite bool_decide_eq_true_2 in Hopens.
  - pose proof (Hids _ _ Hkey) as Hown. simpl in Hown.
    rewrite Hown, insert_insert_eq, net_snoc. simpl.
    destruct (decide (id' = id)) as [->|Hne].
    + assert (stored = account) as -> by congruence.
      rewrite lookup_insert_eq. eexists. split; [done|].
      unfold signed_amount. simpl. lia.
    + rewrite lookup_insert_ne by done. exists account. split; [done|lia].
  - pose proof (Hids _ _ Hkey) as Hown. simpl in Hown.
    rewrite Hown, insert_insert_eq, net_snoc. simpl.
    destruct (decide (id' = id)) as [->|Hne].
    + assert (stored = account) as -> by congruence.
      rewrite lookup_insert_eq. eexists. split; [done|].
      unfold signed_amount. simpl. lia.
    + rewrite lookup_insert_ne by done. exists account. split; [done|lia].
Qed.

Lemma reconcile_run calls bank id account :
  ids_match bank → accounts bank !! id = Some account →
  forallb (λ call, negb (opens id call)) calls = true →
  ∃ account', accounts (run calls bank) !! id = Some account' ∧
    balance account' - net id (transactions (run calls bank)) =
    balance account - net id (transactions bank).
Proof.
  revert bank account.
  induction calls as [|call calls IH]; intros bank account Hids Hid Hcalls.
  - by exists account.
  - simpl in Hcalls. apply andb_prop in Hcalls as [Hcall Hcalls].
    apply negb_true_iff in Hcall.
    destruct (reconcile_step call bank id account Hids Hid Hcall)
      as (account1 & Hid1 & Heq1).
    destruct (IH (after call bank) account1 (ids_match_after _ _ Hids) Hid1 Hcalls)
      as (account' & Hid' & Heq').
    exists account'. rewrite run_cons. split; [done|lia].
Qed.

(** X10.  With integer amounts the ledger reconciles: for an account opened,
    in a state reached from the empty repositories, under an id no stored
    account carried, and not opened again since, the balance is the initial
    deposit plus the deposits less the withdrawals that the log holds for
    it. *)
Theorem balance_reconciles (before later : list (Call Z))
    uuid now (t : AccountType) (initial_deposit : Z) :
  let bank := run before Bank_init in
  let opened :=
    after (CreateAccount uuid now (AccountType_value t) initial_deposit) bank in
  accounts bank !! uuid = None →
  forallb (λ call, negb (opens uuid call)) later = true →
  ∃ account,
    accounts (run later opened) !! uuid = Some account ∧
    balance account = initial_deposit + net uuid (transactions (run later opened)).
Proof.
  intros bank opened Hfresh Hlater.
  assert (opened =
          set_accounts (insert uuid (Account_init uuid now t initial_deposit)) bank)
    as Hopened.
  { unfold opened, after, perform, mbind, Py_bind.
    by rewrite create_account_done. }
  assert (ids_match opened) as Hids
    by (apply ids_match_after, ids_match_run).
  assert (accounts opened !! uuid = Some (Account_init uuid now t initial_deposit))
    as Hid by (rewrite Hopened; simpl; apply lookup_insert_eq).
  destruct (reconcile_run later opened uuid _ Hids Hid Hlater)
    as (account & Hacc & Heq).
  exists account. split; [done|].
  assert (net uuid (transactions opened) = 0) as Hnet.
  { rewrite Hopened. simpl. unfold net.
    by rewrite (log_refers_absent bank uuid (log_refers_run before) Hfresh). }
  rewrite Hnet in Heq. simpl in Heq. lia.
Qed.

(** X11.  With integer amounts a positive balance can be withdrawn whole
    (the test is [balance < amount], not [<=]): the withdrawal returns and
    leaves the balance 0, and from then on every withdrawal raises. *)
Theorem withdraw_entire_balance (self : Account Z) :
  0 < balance self →
  let emptied := Account_withdraw (balance self) self in
  emptied = (Returned (), set_balance 0 self) ∧
  ∀ amount : Z, ∃ e, Account_withdraw amount emptied.2 = (Raised e, emptied.2).
Proof.
  intros Hpos.
  assert (Account_withdraw (balance self) self = (Returned (), set_balance 0 self))
    as Hall.
  { rewrite Account_withdraw_accepts; simpl; [|lia|lia]. by rewrite Z.sub_diag. }
  simpl. rewrite Hall. split; [done|]. intros amount. simpl.
  destruct (num_le amount num_zero) eqn:Hle.
  - eexists. by apply Account_withdraw_rejects.
  - eexists. apply Account_withdraw_short; [done|]. simpl in *. lia.
Qed.
End reconciliation.

(** ** The enum lookup *)

(** X12.  [AccountType(value)] returns a member exactly when [value] is
    that member's value, letter for letter (["checking"] is not
    ["CHECKING"]), and the value of a member always looks up that member. *)
Theorem AccountType_call_exact {S : Type} (value : string) (t : AccountType) (s : S) :
  AccountType_call value s = (Returned t, s) ↔ value = AccountType_value t.
Proof.
  split.
  - intros Hcall. destruct (AccountType_value_cases value) as [[t' ->]|[Hc Hs]].
    + rewrite AccountType_call_member in Hcall. congruence.
    + by rewrite AccountType_call_other in Hcall.
  - intros ->. apply AccountType_call_member.
Qed.

(** ** The route handlers *)

Section route_properties.
Context {num : Type} `{Number num}.
Variable upper : string → string.
Variable repr : string → string.
Implicit Types (bank : Bank num) (account : Account num).

Lemma moved_lookup kind uuid now id a account' bank :
  accounts (moved kind uuid now id a account' bank) !! id = Some account'.
Proof.
  unfold moved. simpl.
  destruct (decide (account_id account' = id)) as [->|Hne].
  - by rewrite lookup_insert_eq.
  - rewrite lookup_insert_ne by done. by rewrite lookup_insert_eq.
Qed.

(** X13.  [POST /accounts]: when the upper-cased type is the value of a
    member, the handler returns the new id, and [GET .../balance] for that id
    then reports that type, the initial deposit as given, the status
    ["ACTIVE"] and the creation time; when it is neither ["CHECKING"] nor
    ["SAVINGS"], the handler raises a 400 [HTTPException] carrying the enum's
    message, and the repositories are as they were. *)
Theorem create_account_route bank uuid now (req : AccountRequest num) :
  let route := create_account upper repr uuid now req bank in
  (∀ t, upper (accountType req) = AccountType_value t →
     route.1 = Ok (Dict [("accountId", Str uuid)]) ∧
     get_balance uuid route.2 =
       (Ok (Dict [ ("accountId", Str uuid);
                   ("accountType", Str (AccountType_value t));
                   ("balance", Num (initialDeposit req));
                   ("status", Str "ACTIVE");
                   ("creationDate", Time now) ]),
        route.2)) ∧
  (upper (accountType req) ≠ "CHECKING" → upper (accountType req) ≠ "SAVINGS" →
     route =
       (HTTPException 400
          (repr (upper (accountType req)) +:+ " is not a valid AccountType"),
        bank)).
Proof.
  unfold create_account. split.
  - intros t Ht. rewrite Ht, create_account_done. simpl. split; [done|].
    unfold get_balance, AccountRepository_get_account_by_id, gets. simpl.
    by rewrite lookup_insert_eq.
  - intros Hc Hs. by rewrite create_account_rejected.
Qed.

(** X14.  [POST .../deposit]: for an id that is not stored, and for an
    amount [<= 0], the handler raises a 400 [HTTPException] with the
    service's message and the repositories are as they were; otherwise it
    returns the transaction's id, type ["DEPOSIT"], amount and time, with
    [newBalance] the old balance plus the amount, which is the balance the
    id then holds (the [None] branch of the second lookup is never taken). *)
Theorem deposit_route bank uuid now account_id (req : TransactionRequest num) :
  let route := deposit repr uuid now account_id req bank in
  (accounts bank !! account_id = None →
     route = (HTTPException 400 "Account not found.", bank)) ∧
  (∀ account, accounts bank !! account_id = Some account →
     num_le (req_amount req) num_zero = true →
     route = (HTTPException 400 "Deposit amount must be positive.", bank)) ∧
  (∀ account, accounts bank !! account_id = Some account →
     num_le (req_amount req) num_zero = false →
     let new_balance := num_add (balance account) (req_amount req) in
     route.1 = Ok (Dict [ ("transactionId", Str uuid);
                          ("transactionType", Str "DEPOSIT");
                          ("amount", Num (req_amount req));
                          ("timestamp", Time now);
                          ("newBalance", Num new_balance) ]) ∧
     route.2 = (TransactionService_deposit uuid now account_id (req_amount req) bank).2 ∧
     accounts route.2 !! account_id = Some (set_balance new_balance account)).
Proof.
  unfold deposit. split; [|split].
  - intros Hkey. by rewrite TransactionService_deposit_not_found.
  - intros account Hkey Hle.
    by rewrite (TransactionService_deposit_rejected _ _ _ _ _ _ Hkey Hle).
  - intros account Hkey Hle.
    rewrite (TransactionService_deposit_done _ _ _ _ _ _ Hkey Hle).
    unfold AccountRepository_get_account_by_id, gets.
    cbn [fst snd]. rewrite moved_lookup. done.
Qed.

(** X15.  [POST .../withdraw]: for an id that is not stored, for an amount
    [<= 0] and for an amount above the balance, the handler raises a 400
    [HTTPException] with the service's message and the repositories are as
    they were; otherwise it returns the transaction's id, type
    ["WITHDRAW"], amount and time, with [newBalance] the old balance less the
    amount, which is the balance the id then holds. *)
Theorem withdraw_route bank uuid now account_id (req : TransactionRequest num) :
  let route := withdraw repr uuid now account_id req bank in
  (accounts bank !! account_id = None →
     route = (HTTPException 400 "Account not found.", bank)) ∧
  (∀ account, accounts bank !! account_id = Some account →
     num_le (req_amount req) num_zero = true →
     route = (HTTPException 400 "Withdrawal amount must be positive.", bank)) ∧
  (∀ account, accounts bank !! account_id = Some account →
     num_le (req_amount req) num_zero = false →
     num_lt (balance account) (req_amount req) = true →
     route = (HTTPException 400 "Insufficient balance.", bank)) ∧
  (∀ account, accounts bank !! account_id = Some account →
     num_le (req_amount req) num_zero = false →
     num_lt (balance account) (req_amount req) = false →
     let new_balance := num_sub (balance account) (req_amount req) in
     route.1 = Ok (Dict [ ("transactionId", Str uuid);
                          ("transactionType", Str "WITHDRAW");
                          ("amount", Num (req_amount req));
                          ("timestamp", Time now);
                          ("newBalance", Num new_balance) ]) ∧
     route.2 = (TransactionService_withdraw uuid now account_id (req_amount req) bank).2 ∧
     accounts route.2 !! account_id = Some (set_balance new_balance account)).
Proof.
  unfold withdraw. split; [|split; [|split]].
  - intros Hkey. by rewrite TransactionService_withdraw_not_found.
  - intros account Hkey Hle.
    by rewrite (TransactionService_withdraw_rejected _ _ _ _ _ _ Hkey Hle).
  - intros account Hkey Hle Hlt.
    by rewrite (TransactionService_withdraw_short _ _ _ _ _ _ Hkey Hle Hlt).
  - intros account Hkey Hle Hlt.
    rewrite (TransactionService_withdraw_done _ _ _ _ _ _ Hkey Hle Hlt).
    unfold AccountRepository_get_account_by_id, gets.
    cbn [fst snd]. rewrite moved_lookup. done.
Qed.

(** X16.  For an id that no stored account carries, in a state reached from
    the empty repositories, the two read routes differ: [GET .../balance]
    raises a 404 [HTTPException], [GET .../transactions] returns the empty
    list; neither changes anything. *)
Theorem unknown_account_reads (calls : list (Call num)) account_id :
  let bank := run calls Bank_init in
  accounts bank !! account_id = None →
  get_balance account_id bank = (HTTPException 404 "Account not found", bank) ∧
  get_transactions account_id bank = (Ok (List []), bank).
Proof.
  intros bank Hkey.
  unfold get_balance, get_transactions, AccountRepository_get_account_by_id,
    TransactionRepository_get_transactions_for_account, gets.
  rewrite Hkey. split; [done|].
  by rewrite (log_refers_absent bank account_id (log_refers_run calls) Hkey).
Qed.

(** X17.  After a deposit or withdrawal that returns a transaction,
    [GET .../transactions] for its account returns the list it returned
    before with that transaction's entry added at the end, and for any other
    account the list it returned before. *)
Theorem transactions_route_follows call bank tx :
  (perform call bank).1 = Returned (Recorded tx) →
  ∃ before,
    (get_transactions (tx_account_id tx) bank).1 = Ok (List before) ∧
    (get_transactions (tx_account_id tx) (after call bank)).1 =
      Ok (List (before ++ [transaction_entry tx])) ∧
    ∀ key, key ≠ tx_account_id tx →
      (get_transactions key (after call bank)).1 = (get_transactions key bank).1.
Proof.
  intros Hret. unfold after.
  pose proof (perform_performed call bank) as Hp. rewrite Hret in Hp.
  unfold get_transactions, TransactionRepository_get_transactions_for_account, gets.
  eexists. split; [reflexivity|].
  inversion Hp as [|uuid now t d|uuid now id account a Hcall Hid Hle Htx Hbank
                  |uuid now id account a Hcall Hid Hle Hlt Htx Hbank]; subst tx;
    simpl.
  - split.
    + rewrite filter_app, filter_cons_True by done.
      by rewrite filter_nil, fmap_app.
    + intros key Hkey. rewrite filter_app, filter_cons_False by done.
      by rewrite filter_nil, app_nil_r.
  - split.
    + rewrite filter_app, filter_cons_True by done.
      by rewrite filter_nil, fmap_app.
    + intros key Hkey. rewrite filter_app, filter_cons_False by done.
      by rewrite filter_nil, app_nil_r.
Qed.
End route_properties.

(** ** Transaction ids *)

Section id_properties.
Context {num : Type} `{Number num}.
Implicit Types (bank : Bank num) (call : Call num).

Lemma logged_ids_step call bank :
  ∃ new,
    transactions (after call bank) = transactions bank ++ new ∧
    transaction_id <$> new `sublist_of` [call_uuid call].
Proof.
  unfold after.
  destruct (perform_performed call bank)
    as [e|uuid now t d ->|uuid now id account a -> _ _
       |uuid now id account a -> _ _ _]; simpl.
  - exists []. rewrite app_nil_r. split; [done|]. apply sublist_nil_l.
  - exists []. rewrite app_nil_r. split; [done|]. apply sublist_nil_l.
  - eexists [_]. split; [done|]. simpl. done.
  - eexists [_]. split; [done|]. simpl. done.
Qed.

Lemma logged_ids_run calls bank :
  ∃ new,
    transactions (run calls bank) = transactions bank ++ new ∧
    transaction_id <$> new `sublist_of` call_uuid <$> calls.
Proof.
  revert bank. induction calls as [|call calls IH]; intros bank.
  - exists []. by rewrite app_nil_r.
  - destruct (logged_ids_step call bank) as (new1 & Hlog1 & Hsub1).
    destruct (IH (after call bank)) as (new2 & Hlog2 & Hsub2).
    exists (new1 ++ new2). rewrite run_cons, Hlog2, Hlog1, <- app_assoc.
    split; [done|]. rewrite fmap_app, fmap_cons.
    by apply (sublist_app _ [_]).
Qed.

(** X18.  The ids of the logged transactions are, in order, among the
    uuids the calls drew; so when the calls drew distinct uuids, no two
    logged transactions share an id. *)
Theorem transaction_ids_distinct calls :
  let log := transactions (run calls (Bank_init (num := num))) in
  transaction_id <$> log `sublist_of` call_uuid <$> calls ∧
  (NoDup (call_uuid <$> calls) → NoDup (transaction_id <$> log)).
Proof.
  intros log. subst log.
  destruct (logged_ids_run calls Bank_init) as (new & -> & Hsub). simpl.
  split; [done|]. intros Hdistinct. by eapply sublist_NoDup.
Qed.
End id_properties.

(** ** NaN amounts *)

Lemma Prim2SF_nan : Prim2SF PrimFloat.nan = S754_nan.
Proof. reflexivity. Qed.

Lemma float_add_nan (b : float) : (b + PrimFloat.nan)%float = PrimFloat.nan.
Proof.
  apply Prim2SF_inj. rewrite add_spec, Prim2SF_nan.
  by destruct (Prim2SF b) as [[]|[]| |[] m e].
Qed.

Lemma float_nan_sub (a : float) : (PrimFloat.nan - a)%float = PrimFloat.nan.
Proof. apply Prim2SF_inj. by rewrite sub_spec, Prim2SF_nan. Qed.

Lemma float_nan_ltb (a : float) : PrimFloat.ltb PrimFloat.nan a = false.
Proof. by rewrite ltb_spec, Prim2SF_nan. Qed.

(** X19.  With floats, [Account.deposit] does not reject NaN ([nan <= 0] is
    false): the deposit returns and the balance is NaN.  On such a balance
    the test [balance < amount] is false for every amount, so every
    withdrawal of an amount that is not [<= 0] returns, and the balance
    stays NaN. *)
Theorem nan_deposit_disables_balance_check (self : Account float) (amount : float) :
  let poisoned := Account_deposit PrimFloat.nan self in
  poisoned = (Returned (), set_balance PrimFloat.nan self) ∧
  (num_le amount num_zero = false →
   Account_withdraw amount poisoned.2 = (Returned (), set_balance PrimFloat.nan self)).
Proof.
  assert (Account_deposit PrimFloat.nan self =
          (Returned (), set_balance PrimFloat.nan self)) as Hdep.
  { rewrite Account_deposit_accepts by reflexivity. simpl. by rewrite float_add_nan. }
  cbv zeta. rewrite Hdep. split; [done|]. intros Hle. cbn [snd].
  rewrite Account_withdraw_accepts; [|done|apply float_nan_ltb].
  unfold set_balance. simpl. by rewrite float_nan_sub.
Qed.

(** ** The further properties at concrete inputs *)

Section further_witnesses.
#[local] Set Warnings "-inexact-float".
#[local] Open Scope float_scope.
Import Scenario.

(** Storing the funded account emptied, after storing it as it is. *)
Lemma update_account_last_write_wins_witness :
  let second := set_balance 0 funded_account in
  account_id funded_account = account_id second ∧
  (AccountRepository_update_account second
     (AccountRepository_update_account funded_account funded).2).2 =
    (AccountRepository_update_account second funded).2.
Proof.
  split; [reflexivity|].
  exact (proj1 (update_account_last_write_wins funded funded_account
                  (set_balance 0 funded_account) eq_refl)).
Defined.

(** Withdrawing 200.0 from the funded account, which holds 150.0. *)
Lemma failed_call_changes_nothing_witness :
  let call := Withdraw "tx-2" 2%Z "acc-1" 200 in
  (perform call funded).1 = Raised (ValueError "Insufficient balance.") ∧
  after call funded = funded.
Proof.
  assert ((perform (Withdraw "tx-2" 2%Z "acc-1" 200) funded).1 =
          Raised (ValueError "Insufficient balance.")) as Hraised
    by (vm_compute; reflexivity).
  split; [exact Hraised|].
  exact (failed_call_changes_nothing _ funded _ Hraised).
Defined.

(** A deposit to "acc-1" seen from a second account "acc-5". *)
Lemma call_touches_one_account_witness :
  let bank := run (calls ++ [CreateAccount "acc-5" 8%Z "SAVINGS" 100]) Bank_init in
  let call := Deposit "tx-5" 9%Z "acc-1" 5 in
  ids_match bank ∧ names call ≠ "acc-5" ∧
  (perform call bank).1 =
    Returned (Recorded (Transaction_init "tx-5" 9%Z "acc-1" DEPOSIT 5)) ∧
  accounts (after call bank) !! "acc-5" = accounts bank !! "acc-5".
Proof.
  intros bank call.
  assert (ids_match bank) as Hids by apply ids_match_run.
  assert (names call ≠ "acc-5") as Hname by (simpl; discriminate).
  split; [exact Hids|]. split; [exact Hname|].
  split; [vm_compute; reflexivity|].
  exact (call_touches_one_account call bank "acc-5" Hids Hname).
Defined.

(** The funded account through a deposit, a failed withdrawal and a failed
    deposit. *)
Lemma account_keeps_identity_witness :
  let later := [ Deposit "tx-5" 9%Z "acc-1" 5;
                 Withdraw "tx-6" 10%Z "acc-1" 500;
                 Deposit "tx-7" 11%Z "acc-1" (-1) ] in
  ids_match funded ∧
  accounts funded !! "acc-1" = Some funded_account ∧
  forallb (λ call, negb (opens "acc-1" call)) later = true ∧
  ∃ account', accounts (run later funded) !! "acc-1" = Some account' ∧
              account' = set_balance (balance account') funded_account.
Proof.
  intros later.
  assert (ids_match funded) as Hids by apply ids_match_run.
  assert (accounts funded !! "acc-1" = Some funded_account) as Hid
    by (vm_compute; reflexivity).
  split; [exact Hids|]. split; [exact Hid|]. split; [reflexivity|].
  exact (account_keeps_identity later funded "acc-1" funded_account Hids Hid eq_refl).
Defined.

(** The scenario in whole units: 100 + 50 - 150 = 0. *)
Lemma balance_reconciles_witness :
  let later := drop 1 int_calls in
  let opened := after (CreateAccount "acc-1" 0%Z "CHECKING" 100%Z) Bank_init in
  accounts (Bank_init (num := Z)) !! "acc-1" = None ∧
  forallb (λ call, negb (opens "acc-1" call)) later = true ∧
  ∃ account,
    accounts (run later opened) !! "acc-1" = Some account ∧
    balance account = (100 + net "acc-1" (transactions (run later opened)))%Z.
Proof.
  intros later opened. split; [reflexivity|]. split; [reflexivity|].
  exact (balance_reconciles [] (drop 1 int_calls) "acc-1" 0%Z CHECKING 100%Z
           eq_refl eq_refl).
Defined.

(** Withdrawing 100 from a balance of 100. *)
Lemma withdraw_entire_balance_witness :
  let self : Account Z := Account_init "acc-1" 0%Z CHECKING 100%Z in
  (0 < balance self)%Z ∧
  Account_withdraw (balance self) self = (Returned (), set_balance 0%Z self).
Proof.
  intros self. split; [reflexivity|].
  exact (proj1 (withdraw_entire_balance
                  (Account_init "acc-1" 0%Z CHECKING 100%Z) eq_refl)).
Defined.

(** Opening an account of type "checking", and one of type "gold". *)
Lemma create_account_route_witness :
  let lower := {| accountType := "checking"; initialDeposit := 100 |} in
  let gold := {| accountType := "gold"; initialDeposit := 100 |} in
  (create_account PlainAscii.upper PlainAscii.repr "acc-1" 0%Z lower Bank_init).1 =
    Ok (Dict [("accountId", Str "acc-1")]) ∧
  create_account PlainAscii.upper PlainAscii.repr "acc-1" 0%Z gold Bank_init =
    (HTTPException 400 "'GOLD' is not a valid AccountType", Bank_init).
Proof.
  intros lower gold. split.
  - exact (proj1 (proj1 (create_account_route PlainAscii.upper PlainAscii.repr
                           Bank_init "acc-1" 0%Z lower) CHECKING eq_refl)).
  - apply (proj2 (create_account_route PlainAscii.upper PlainAscii.repr
                    Bank_init "acc-1" 0%Z gold)); discriminate.
Defined.

(** Depositing 25.0 to the funded account: the new balance is 175.0. *)
Lemma deposit_route_witness :
  let req := {| req_amount := 25 |} in
  (deposit PlainAscii.repr "tx-8" 12%Z "acc-1" req funded).1 =
    Ok (Dict [ ("transactionId", Str "tx-8");
               ("transactionType", Str "DEPOSIT");
               ("amount", Num 25);
               ("timestamp", Time 12%Z);
               ("newBalance", Num (num_add (balance funded_account) 25)) ]) ∧
  num_add (balance funded_account) 25 = 175.
Proof.
  intros req. split; [|reflexivity].
  refine (proj1 (proj2 (proj2 (deposit_route PlainAscii.repr funded "tx-8" 12%Z
                                 "acc-1" req)) funded_account _ _));
    vm_compute; reflexivity.
Defined.

(** Withdrawing 500.0, and 25.0, from the funded account. *)
Lemma withdraw_route_witness :
  withdraw PlainAscii.repr "tx-8" 12%Z "acc-1" {| req_amount := 500 |} funded =
    (HTTPException 400 "Insufficient balance.", funded) ∧
  (withdraw PlainAscii.repr "tx-8" 12%Z "acc-1" {| req_amount := 25 |} funded).1 =
    Ok (Dict [ ("transactionId", Str "tx-8");
               ("transactionType", Str "WITHDRAW");
               ("amount", Num 25);
               ("timestamp", Time 12%Z);
               ("newBalance", Num (num_sub (balance funded_account) 25)) ]).
Proof.
  split.
  - refine (proj1 (proj2 (proj2 (withdraw_route PlainAscii.repr funded "tx-8" 12%Z
                                   "acc-1" {| req_amount := 500 |})))
              funded_account _ _ _); vm_compute; reflexivity.
  - refine (proj1 (proj2 (proj2 (proj2 (withdraw_route PlainAscii.repr funded
                                          "tx-8" 12%Z "acc-1" {| req_amount := 25 |})))
                     funded_account _ _ _)); vm_compute; reflexivity.
Defined.

(** Reading an id that was never opened, after the scenario. *)
Lemma unknown_account_reads_witness :
  let bank := run calls Bank_init in
  accounts bank !! "acc-404" = None ∧
  get_balance "acc-404" bank = (HTTPException 404 "Account not found", bank) ∧
  get_transactions "acc-404" bank = (Ok (List []), bank).
Proof.
  intros bank.
  assert (accounts bank !! "acc-404" = None) as Hkey by (vm_compute; reflexivity).
  split; [exact Hkey|]. exact (unknown_account_reads calls "acc-404" Hkey).
Defined.

(** The log of "acc-1" as the route shows it, before and after a deposit of
    25.0. *)
Lemma transactions_route_follows_witness :
  let call := Deposit "tx-8" 12%Z "acc-1" 25 in
  let tx := Transaction_init "tx-8" 12%Z "acc-1" DEPOSIT 25 in
  (perform call funded).1 = Returned (Recorded tx) ∧
  ∃ before,
    (get_transactions "acc-1" funded).1 = Ok (List before) ∧
    (get_transactions "acc-1" (after call funded)).1 =
      Ok (List (before ++ [transaction_entry tx])) ∧
    ∀ key, key ≠ "acc-1" →
      (get_transactions key (after call funded)).1 = (get_transactions key funded).1.
Proof.
  intros call tx.
  assert ((perform call funded).1 = Returned (Recorded tx)) as Hret
    by (vm_compute; reflexivity).
  split; [exact Hret|]. exact (transactions_route_follows call funded tx Hret).
Defined.
(** Depositing NaN to the funded account, then withdrawing 1000000.0. *)
Lemma nan_deposit_disables_balance_check_witness :
  num_le 1000000 (num_zero (num := float)) = false ∧
  Account_withdraw 1000000 (Account_deposit PrimFloat.nan funded_account).2 =
    (Returned (), set_balance PrimFloat.nan funded_account).
Proof.
  split; [reflexivity|].
  exact (proj2 (nan_deposit_disables_balance_check funded_account 1000000) eq_refl).
Defined.
End further_witnesses.
